(** * Verification of the purchase-order Telegram bot (src/bot.py)

    Shallow embedding of [UserManager], of the order conversation driven by
    python-telegram-bot's [ConversationHandler], and of the delivery helpers
    [_send_message_with_retry] and [_send_order_to_admins]. *)

From Stdlib Require Import String Ascii ZArith Lia.
From stdpp Require Import base gmap sets list strings pretty.

Open Scope string_scope.

(* ------------------------------------------------------------------ *)
(** ** Python string helpers used by the bot *)

Module Py.

(** Python [str] values, as the sequences of Unicode code points they are.
    The tables below are those of Python 3.11 (Unicode 14.0.0). *)
Definition text := list Z.

(** The code points for which [str.isspace()] holds; they are exactly the
    characters [str.strip()] removes. *)
Definition whitespace : list Z :=
  [9; 10; 11; 12; 13; 28; 29; 30; 31; 32; 133; 160; 5760; 8192; 8193; 8194;
   8195; 8196; 8197; 8198; 8199; 8200; 8201; 8202; 8232; 8233; 8239; 8287; 12288]%Z.

Definition is_space (c : Z) : bool := existsb (Z.eqb c) whitespace.

(** The code points that have a decimal value ([unicodedata.decimal]),
    which are the digits [int()] accepts: 66 runs of ten, each given by the
    code point of its zero. *)
Definition decimal_zeros : list Z :=
  [48; 1632; 1776; 1984; 2406; 2534; 2662; 2790; 2918; 3046; 3174; 3302; 3430;
   3558; 3664; 3792; 3872; 4160; 4240; 6112; 6160; 6470; 6608; 6784; 6800;
   6992; 7088; 7232; 7248; 42528; 43216; 43264; 43472; 43504; 43600; 44016;
   65296; 66720; 68912; 69734; 69872; 69942; 70096; 70384; 70736; 70864;
   71248; 71360; 71472; 71904; 72016; 72784; 73040; 73120; 92768; 92864;
   93008; 120782; 120792; 120802; 120812; 120822; 123200; 123632; 125264;
   130032]%Z.

Definition decimal_value (c : Z) : option Z :=
  match List.find (fun z => (Z.leb z c && Z.ltb c (z + 10))%bool) decimal_zeros with
  | Some z => Some (c - z)%Z
  | None => None
  end.

Fixpoint lstrip_text (s : text) : text :=
  match s with
  | [] => []
  | c :: r => if is_space c then lstrip_text r else s
  end.

(** [s.strip()] *)
Definition strip_text (s : text) : text :=
  List.rev (lstrip_text (List.rev (lstrip_text s))).

(** [s.split(sep)[0]] for a one-character separator. *)
Fixpoint split_first (sep : Z) (s : text) : text :=
  match s with
  | [] => []
  | c :: r => if Z.eqb c sep then [] else c :: split_first sep r
  end.

(** [sys.get_int_max_str_digits()] at its default: [int()] raises
    ValueError on a decimal numeral with more digits. *)
#[warnings="-abstract-large-number"]
Definition max_str_digits : nat := 4300.

(** The digits of [int()] after the first one: single underscores are
    allowed between digits. [acc] is the value read so far and [n] the
    number of digits. *)
Fixpoint digits_after (acc : Z) (n : nat) (s : text) : option (Z * nat) :=
  match s with
  | [] => Some (acc, n)
  | c :: r =>
      if Z.eqb c 95 then
        match r with
        | c' :: r' =>
            match decimal_value c' with
            | Some d => digits_after (acc * 10 + d)%Z (S n) r'
            | None => None
            end
        | [] => None
        end
      else
        match decimal_value c with
        | Some d => digits_after (acc * 10 + d)%Z (S n) r
        | None => None
        end
  end.

Definition digits (s : text) : option Z :=
  match s with
  | c :: r =>
      match decimal_value c with
      | Some d =>
          match digits_after d 1 r with
          | Some (v, n) => if Nat.leb n max_str_digits then Some v else None
          | None => None
          end
      | None => None
      end
  | [] => None
  end.

(** [int(s)] on an already stripped string: an optional ASCII sign, then
    digits; [None] stands for the [ValueError]. *)
Definition int_of_text (s : text) : option Z :=
  match s with
  | c :: r =>
      if Z.eqb c 45 then option_map Z.opp (digits r)
      else if Z.eqb c 43 then digits r
      else digits s
  | [] => None
  end.

(** Message texts are held as the bytes of their UTF-8 encoding. *)
Definition byte_of (z : Z) : ascii := ascii_of_nat (Z.to_nat z).

Definition byte_val (a : ascii) : Z := Z.of_nat (nat_of_ascii a).

Definition cont (a : ascii) : Z := (byte_val a - 128)%Z.

(** Decoding well-formed UTF-8 (every text Telegram delivers is); a byte
    that cannot start a sequence decodes to U+FFFD. *)
Fixpoint utf8_decode (s : string) : text :=
  match s with
  | EmptyString => []
  | String a r =>
      let b := byte_val a in
      if Z.ltb b 128 then b :: utf8_decode r
      else if (Z.leb 192 b && Z.ltb b 224)%bool then
        match r with
        | String a1 r1 => ((b - 192) * 64 + cont a1)%Z :: utf8_decode r1
        | EmptyString => [65533%Z]
        end
      else if (Z.leb 224 b && Z.ltb b 240)%bool then
        match r with
        | String a1 (String a2 r2) =>
            ((b - 224) * 4096 + cont a1 * 64 + cont a2)%Z :: utf8_decode r2
        | _ => [65533%Z]
        end
      else if (Z.leb 240 b && Z.ltb b 248)%bool then
        match r with
        | String a1 (String a2 (String a3 r3)) =>
            ((b - 240) * 262144 + cont a1 * 4096 + cont a2 * 64 + cont a3)%Z
              :: utf8_decode r3
        | _ => [65533%Z]
        end
      else 65533%Z :: utf8_decode r
  end.

Definition utf8_encode_char (c : Z) : string :=
  if Z.ltb c 128 then String (byte_of c) EmptyString
  else if Z.ltb c 2048 then
    String (byte_of (192 + c / 64)) (String (byte_of (128 + c mod 64)) EmptyString)
  else if Z.ltb c 65536 then
    String (byte_of (224 + c / 4096))
      (String (byte_of (128 + (c / 64) mod 64))
        (String (byte_of (128 + c mod 64)) EmptyString))
  else
    String (byte_of (240 + c / 262144))
      (String (byte_of (128 + (c / 4096) mod 64))
        (String (byte_of (128 + (c / 64) mod 64))
          (String (byte_of (128 + c mod 64)) EmptyString))).

Fixpoint utf8_encode (s : text) : string :=
  match s with
  | [] => EmptyString
  | c :: r => String.append (utf8_encode_char c) (utf8_encode r)
  end.

(** [s.strip()] on a message text. *)
Definition strip (s : string) : string := utf8_encode (strip_text (utf8_decode s)).

(** [s.replace(old, "")] with a non-empty [old]: every non-overlapping
    occurrence, scanned left to right, is removed. [fuel] is the length. *)
Fixpoint remove_all_fuel (fuel : nat) (old s : string) : string :=
  match fuel with
  | O => s
  | S f =>
      match s with
      | EmptyString => EmptyString
      | String c r =>
          if String.prefix old s
          then remove_all_fuel f old (substring (String.length old) (String.length s) s)
          else String c (remove_all_fuel f old r)
      end
  end.

Definition replace_empty (old s : string) : string :=
  remove_all_fuel (String.length s) old s.

(** [s.startswith(p)] (the [^p] pattern of [CallbackQueryHandler]). *)
Definition startswith (s p : string) : bool := String.prefix p s.

End Py.

(* ------------------------------------------------------------------ *)
(** ** UserManager *)

(** Exceptions raised by the code paths we model. *)
Inductive Exn :=
  | ExnRetryAfter (retry_after : Z)   (** telegram.error.RetryAfter *)
  | ExnNetwork                        (** TimedOut / NetworkError *)
  | ExnTelegram                       (** any other send failure *)
  | ExnKey (key : string)             (** KeyError *)
  | ExnValue (msg : string)           (** ValueError *)
  | ExnConfig (msg : string).         (** configparser.Error *)

Inductive Result (A : Type) := Ok (a : A) | Err (e : Exn).
Arguments Ok {A} a.
Arguments Err {A} e.

(** What [config.read('users.cfg')] leaves in the parser: either the read
    raised (duplicate section or option, missing section header, ...) or
    the DEFAULT keys and the named sections with their keys, as
    ConfigParser hands them over (already stripped and lower-cased, read
    from the UTF-8 file as Python strings). A missing file reads as
    [CfgParsed [] []]. *)
Inductive ConfigFile :=
  | CfgUnparsable (err : string)
  | CfgParsed (defaults : list Py.text) (sections : list (string * list Py.text)).

(** [for key in config[name]]: the section's keys, then the DEFAULT keys it
    does not have; [None] when [name in config] is false. *)
Definition section_keys (defaults : list Py.text)
    (sections : list (string * list Py.text)) (name : string) : option (list Py.text) :=
  match List.find (fun p => String.eqb (fst p) name) sections with
  | Some (_, ks) =>
      Some (ks ++ List.filter
              (fun k => negb (existsb (fun k' => bool_decide (k = k')) ks)) defaults)%list
  | None => None
  end.

Definition ERROR_no_admins : string := "no_admins".

Record UserManager := mkUserManager {
  admins : gset Z;
  allowed_users : gset Z
}.

(** [UserManager._parse_user_id]; 35 is "#". *)
Definition parse_user_id (user_id_str : Py.text) : option Z :=
  let s := Py.strip_text (Py.split_first 35 user_id_str) in
  match s with
  | [] => None
  | _ => Py.int_of_text s
  end.

(** The loop [for key in config[...]: ... .add(user_id)]; invalid keys are
    only logged. *)
Definition collect_ids (keys : option (list Py.text)) : gset Z :=
  match keys with
  | Some ks => list_to_set (omap parse_user_id ks)
  | None => ∅
  end.

(** [UserManager._load_users]: the fields are assigned only after both
    sections have been read. *)
Definition _load_users (cfg : ConfigFile) (um : UserManager) : Result unit * UserManager :=
  match cfg with
  | CfgUnparsable e => (Err (ExnConfig e), um)
  | CfgParsed d secs =>
      let adm := collect_ids (section_keys d secs "ADMINS") in
      if decide (adm = ∅) then (Err (ExnValue ERROR_no_admins), um)
      else
        let allowed := collect_ids (section_keys d secs "USERS") in
        (Ok tt, mkUserManager adm (allowed ∪ adm))
  end.

Definition is_admin (um : UserManager) (user_id : Z) : bool :=
  bool_decide (user_id ∈ admins um).

Definition is_allowed (um : UserManager) (user_id : Z) : bool :=
  bool_decide (user_id ∈ allowed_users um).

Definition reload_users (cfg : ConfigFile) (um : UserManager) : Result unit * UserManager :=
  _load_users cfg um.

(** [get_admin_ids]: a copy, iterated in some order. *)
Definition get_admin_ids (um : UserManager) : list Z := elements (admins um).

(* ------------------------------------------------------------------ *)
(** ** The bot's world and its effect monad *)

(** One answer of the Telegram transport to a [send_message] (or to a
    [query.answer()]) call. *)
Inductive Outcome :=
  | OSent                         (** the call returned normally *)
  | ORetryAfter (retry_after : Z) (** raised RetryAfter *)
  | ONetwork                      (** raised TimedOut / NetworkError *)
  | OFailed.                      (** raised another TelegramError *)

Definition exn_of_outcome (o : Outcome) : option Exn :=
  match o with
  | OSent => None
  | ORetryAfter d => Some (ExnRetryAfter d)
  | ONetwork => Some ExnNetwork
  | OFailed => Some ExnTelegram
  end.

(** An inline keyboard: rows of (label, callback_data) buttons. *)
Definition Keyboard := list (list (string * string)).

(** Observable effects, in order. *)
Inductive Event :=
  | EvSend (chat_id : Z) (text : string) (markup : option Keyboard) (o : Outcome)
  | EvAnswer (o : Outcome)
  | EvSleep (secs : Z).

(** [context.user_data] for the user: the keys the handlers write. *)
Record UserData := mkUserData {
  order_in_progress : bool;
  department : option string;
  product : option string;
  quantity : option string;
  priority : option string
}.

(** [user_data.clear()], and the data of a user who never wrote anything. *)
Definition empty_user_data : UserData := mkUserData false None None None None.

(** [datetime.now()] *)
Record DateTime := mkDateTime {
  dt_year : nat; dt_month : nat; dt_day : nat; dt_hour : nat; dt_minute : nat
}.

Record St := mkSt {
  um : UserManager;          (** [self.user_manager] *)
  users_cfg : ConfigFile;    (** current content of users.cfg *)
  ud : UserData;             (** [context.user_data] *)
  sched : list Outcome;      (** the transport's next answers; when exhausted, calls succeed *)
  trace : list Event;        (** effects so far *)
  clock : DateTime
}.

Definition set_um (x : UserManager) (s : St) : St :=
  mkSt x (users_cfg s) (ud s) (sched s) (trace s) (clock s).
Definition set_ud (x : UserData) (s : St) : St :=
  mkSt (um s) (users_cfg s) x (sched s) (trace s) (clock s).
Definition set_sched (x : list Outcome) (s : St) : St :=
  mkSt (um s) (users_cfg s) (ud s) x (trace s) (clock s).
Definition add_event (e : Event) (s : St) : St :=
  mkSt (um s) (users_cfg s) (ud s) (sched s) (trace s ++ [e])%list (clock s).

(** State and exception monad. *)
Definition M (A : Type) : Type := St -> Result A * St.

Global Instance M_ret : MRet M := fun A a s => (Ok a, s).
Global Instance M_bind : MBind M := fun A B f m s =>
  match m s with
  | (Ok a, s') => f a s'
  | (Err e, s') => (Err e, s')
  end.

Definition raise {A} (e : Exn) : M A := fun s => (Err e, s).
Definition gets {A} (f : St -> A) : M A := fun s => (Ok (f s), s).
Definition modify (f : St -> St) : M unit := fun s => (Ok tt, f s).

(** [try: m except Exception as e: h e] *)
Definition catch {A} (m : M A) (h : Exn -> M A) : M A := fun s =>
  match m s with
  | (Err e, s') => h e s'
  | r => r
  end.

(** The next answer of the transport. *)
Definition next_outcome : M Outcome := fun s =>
  match sched s with
  | [] => (Ok OSent, s)
  | o :: rest => (Ok o, set_sched rest s)
  end.

(** [await self.application.bot.send_message(chat_id=..., text=..., ...)] *)
Definition send_message (chat_id : Z) (text : string) (markup : option Keyboard) : M unit :=
  o ← next_outcome;
  modify (add_event (EvSend chat_id text markup o));;
  match exn_of_outcome o with
  | None => mret tt
  | Some e => raise e
  end.

(** [await query.answer()] *)
Definition answer_query : M unit :=
  o ← next_outcome;
  modify (add_event (EvAnswer o));;
  match exn_of_outcome o with
  | None => mret tt
  | Some e => raise e
  end.

(** [await asyncio.sleep(secs)] *)
Definition sleep (secs : Z) : M unit := modify (add_event (EvSleep secs)).

(** The loop of [_send_message_with_retry]:
    [for attempt in range(max_retries)], [n] iterations left, so
    [attempt = max_retries - n]. [Some tt] is the [return] of a sent
    message, [None] falling off the end of the loop. *)
Fixpoint retry_loop (chat_id : Z) (text : string) (markup : option Keyboard)
    (max_retries n : nat) : M (option unit) :=
  match n with
  | O => mret None
  | S n' =>
      let attempt := (max_retries - n)%nat in
      catch (send_message chat_id text markup;; mret (Some tt))
        (fun e =>
           match e with
           | ExnRetryAfter d =>
               sleep d;; retry_loop chat_id text markup max_retries n'
           | ExnNetwork =>
               if Nat.ltb attempt (max_retries - 1)
               then sleep (2 ^ Z.of_nat attempt)%Z;;
                    retry_loop chat_id text markup max_retries n'
               else raise e
           | _ => raise e
           end)
  end.

(** [Bot._send_message_with_retry(chat_id, text, reply_markup=None, max_retries=3)] *)
Definition _send_message_with_retry_n (max_retries : nat) (chat_id : Z) (text : string)
    (markup : option Keyboard) : M (option unit) :=
  retry_loop chat_id text markup max_retries max_retries.

Definition _send_message_with_retry (chat_id : Z) (text : string)
    (markup : option Keyboard) : M (option unit) :=
  _send_message_with_retry_n 3 chat_id text markup.

(* ------------------------------------------------------------------ *)
(** ** Texts of messages.py

    messages.py is not part of the sources at hand; its texts are only
    passed through, so each is represented by its key. *)

Module Messages.
Definition access_denied := "GENERAL_MESSAGES.access_denied".
Definition error_occurred := "GENERAL_MESSAGES.error_occurred".
Definition start_allowed := "COMMAND_MESSAGES.start.allowed".
Definition help_commands := "COMMAND_MESSAGES.help.commands".
Definition reload_not_admin := "COMMAND_MESSAGES.reload_users.not_admin".
Definition reload_success := "COMMAND_MESSAGES.reload_users.success".
Definition reload_error := "COMMAND_MESSAGES.reload_users.error".
Definition order_already_in_progress := "COMMAND_MESSAGES.order.already_in_progress".
Definition order_select_department := "COMMAND_MESSAGES.order.select_department".
Definition order_enter_product := "COMMAND_MESSAGES.order.enter_product".
Definition order_enter_quantity := "COMMAND_MESSAGES.order.enter_quantity".
Definition order_select_priority := "COMMAND_MESSAGES.order.select_priority".
Definition order_success := "COMMAND_MESSAGES.order.success".
Definition order_cancelled := "COMMAND_MESSAGES.order.cancelled".
Definition cancel_not_available := "COMMAND_MESSAGES.cancel.not_available".
Definition cancel_success := "COMMAND_MESSAGES.cancel.success".

(** Modelled from the spec: [ORDER_TEMPLATE] of messages.py, "formatted text
    combining OrderDraft fields, submitter identity, and a timestamp". *)
Definition ORDER_TEMPLATE :=
  "New order" ++ "
From: {user_name} (@{username})
Department: {department}
Product: {product}
Quantity: {quantity}
Priority: {priority}
Date: {date}".

(** Modelled from the spec: [COMMAND_MESSAGES['order']['confirmation']],
    "a human-readable confirmation summary from the full draft". *)
Definition order_confirmation :=
  "Confirm the order" ++ "
Department: {department}
Product: {product}
Quantity: {quantity}
Priority: {priority}".
End Messages.

(* ------------------------------------------------------------------ *)
(** ** [str.format] with named fields *)

Fixpoint assoc (k : string) (args : list (string * string)) : option string :=
  match args with
  | [] => None
  | (k', v) :: r => if String.eqb k k' then Some v else assoc k r
  end.

(** [field] is the name being read after an opening brace. A missing name
    raises KeyError; [{{] and [}}] are literal braces. *)
Fixpoint format_go (args : list (string * string)) (s : string)
    (field : option string) : Result string :=
  match s, field with
  | EmptyString, None => Ok EmptyString
  | EmptyString, Some _ => Err (ExnValue "Single '{' encountered in format string")
  | String "{" (String "{" r), None =>
      match format_go args r None with Ok t => Ok (String "{" t) | e => e end
  | String "{" r, None => format_go args r (Some EmptyString)
  | String "}" (String "}" r), None =>
      match format_go args r None with Ok t => Ok (String "}" t) | e => e end
  | String c r, None =>
      match format_go args r None with Ok t => Ok (String c t) | e => e end
  | String "}" r, Some nm =>
      match assoc nm args with
      | Some v => match format_go args r None with Ok t => Ok (v ++ t) | e => e end
      | None => Err (ExnKey nm)
      end
  | String c r, Some nm => format_go args r (Some (nm ++ String c EmptyString))
  end.

Definition py_format (template : string) (args : list (string * string)) : Result string :=
  format_go args template None.

Definition rbind {A B} (r : Result A) (f : A -> Result B) : Result B :=
  match r with Ok a => f a | Err e => Err e end.

(** Lifting a pure [Result] into the monad. *)
Definition liftR {A} (r : Result A) : M A :=
  match r with Ok a => mret a | Err e => raise e end.

(** [d[k]] on a dict of strings. *)
Definition dict_get (d : gmap string string) (k : string) : Result string :=
  match d !! k with Some v => Ok v | None => Err (ExnKey k) end.

(** [order_data['k']] on the user data. *)
Definition field_get (k : string) (v : option string) : Result string :=
  match v with Some x => Ok x | None => Err (ExnKey k) end.

Definition pad2 (n : nat) : string :=
  if Nat.ltb n 10 then "0" ++ pretty n else pretty n.

(** [datetime.now().strftime("%d.%m.%Y %H:%M")] *)
Definition strftime_order (d : DateTime) : string :=
  pad2 (dt_day d) ++ "." ++ pad2 (dt_month d) ++ "." ++ pretty (dt_year d) ++ " "
  ++ pad2 (dt_hour d) ++ ":" ++ pad2 (dt_minute d).

(** [telegram.User] *)
Record TgUser := mkTgUser {
  user_id : Z;
  first_name : string;
  last_name : option string;
  username : option string
}.

Definition full_name (u : TgUser) : string :=
  match last_name u with
  | Some l => first_name u ++ " " ++ l
  | None => first_name u
  end.

(** [user.username or "не указан"] *)
Definition username_or_default (u : TgUser) : string :=
  match username u with
  | Some s => if String.eqb s "" then "не указан" else s
  | None => "не указан"
  end.

(* ------------------------------------------------------------------ *)
(** ** Updates and the handlers of [Bot] *)

Inductive OrderState :=
  | SELECTING_DEPARTMENT
  | ENTERING_PRODUCT
  | ENTERING_QUANTITY
  | SELECTING_PRIORITY
  | CONFIRMING_ORDER.

(** What an incoming update carries: a command ([/name]), a text message
    that is not a command, or a callback query with its data. *)
Inductive UpdateKind :=
  | UCommand (name : string)
  | UText (text : string)
  | UCallback (data : string).

Record Update := mkUpdate {
  effective_user : TgUser;
  effective_chat : Z;
  kind : UpdateKind
}.

(** A handler of the conversation returns the next state, [None] being
    [ConversationHandler.END]. *)
Abbreviation END := (@None OrderState).

Definition set_user_data (f : UserData -> UserData) : M unit :=
  modify (fun s => set_ud (f (ud s)) s).

Definition with_order_in_progress (b : bool) (d : UserData) : UserData :=
  mkUserData b (department d) (product d) (quantity d) (priority d).
Definition with_department (x : string) (d : UserData) : UserData :=
  mkUserData (order_in_progress d) (Some x) (product d) (quantity d) (priority d).
Definition with_product (x : string) (d : UserData) : UserData :=
  mkUserData (order_in_progress d) (department d) (Some x) (quantity d) (priority d).
Definition with_quantity (x : string) (d : UserData) : UserData :=
  mkUserData (order_in_progress d) (department d) (product d) (Some x) (priority d).
Definition with_priority (x : string) (d : UserData) : UserData :=
  mkUserData (order_in_progress d) (department d) (product d) (quantity d) (Some x).

Section Handlers.

(** [DEPARTMENTS] and [PRIORITIES] of messages.py: static catalogs
    id -> display label. *)
Variable DEPARTMENTS : gmap string string.
Variable PRIORITIES : gmap string string.

Definition department_keyboard : Keyboard :=
  map (fun p => [(snd p, "dept_" ++ fst p)]) (map_to_list DEPARTMENTS).

Definition priority_keyboard : Keyboard :=
  map (fun p => [(snd p, "priority_" ++ fst p)]) (map_to_list PRIORITIES).

Definition confirm_keyboard : Keyboard :=
  [[("Подтвердить", "confirm_yes"); ("Отменить", "confirm_no")]].

(** [Bot.start] *)
Definition start (u : Update) : M unit :=
  allowed ← gets (fun s => is_allowed (um s) (user_id (effective_user u)));
  if negb allowed
  then _send_message_with_retry (effective_chat u) Messages.access_denied None;; mret tt
  else _send_message_with_retry (effective_chat u) Messages.start_allowed None;; mret tt.

(** [Bot.help_command] *)
Definition help_command (u : Update) : M unit :=
  allowed ← gets (fun s => is_allowed (um s) (user_id (effective_user u)));
  if negb allowed
  then _send_message_with_retry (effective_chat u) Messages.access_denied None;; mret tt
  else _send_message_with_retry (effective_chat u) Messages.help_commands None;; mret tt.

(** [update.message.reply_text(text)]: one call, no retry. *)
Definition reply_text (u : Update) (text : string) : M unit :=
  send_message (effective_chat u) text None.

(** [self.user_manager.reload_users()] on the current users.cfg. *)
Definition um_reload_users : M unit := fun s =>
  let '(r, um') := reload_users (users_cfg s) (um s) in (r, set_um um' s).

(** [Bot.reload_users] *)
Definition bot_reload_users (u : Update) : M unit :=
  adm ← gets (fun s => is_admin (um s) (user_id (effective_user u)));
  if negb adm then reply_text u Messages.reload_not_admin
  else catch (um_reload_users;; reply_text u Messages.reload_success)
             (fun _ => reply_text u Messages.reload_error).

(** [Bot.order_command] *)
Definition order_command (u : Update) : M (option OrderState) :=
  allowed ← gets (fun s => is_allowed (um s) (user_id (effective_user u)));
  if negb allowed then
    _send_message_with_retry (effective_chat u) Messages.access_denied None;; mret END
  else (
    in_progress ← gets (fun s => order_in_progress (ud s));
    if (in_progress : bool) then
      _send_message_with_retry (effective_chat u) Messages.order_already_in_progress None;;
      mret END
    else
      set_user_data (with_order_in_progress true);;
      _send_message_with_retry (effective_chat u) Messages.order_select_department
        (Some department_keyboard);;
      mret (Some SELECTING_DEPARTMENT)).

(** [Bot.department_selected]; [data] is [query.data]. *)
Definition department_selected (u : Update) (data : string) : M (option OrderState) :=
  answer_query;;
  let dept_id := Py.replace_empty "dept_" data in
  set_user_data (with_department dept_id);;
  _send_message_with_retry (effective_chat u) Messages.order_enter_product None;;
  mret (Some ENTERING_PRODUCT).

(** [Bot.product_entered] *)
Definition product_entered (u : Update) (text : string) : M (option OrderState) :=
  let p := Py.strip text in
  set_user_data (with_product p);;
  _send_message_with_retry (effective_chat u) Messages.order_enter_quantity None;;
  mret (Some ENTERING_QUANTITY).

(** [Bot.quantity_entered] *)
Definition quantity_entered (u : Update) (text : string) : M (option OrderState) :=
  let q := Py.strip text in
  set_user_data (with_quantity q);;
  _send_message_with_retry (effective_chat u) Messages.order_select_priority
    (Some priority_keyboard);;
  mret (Some SELECTING_PRIORITY).

(** [Bot.priority_selected] *)
Definition priority_selected (u : Update) (data : string) : M (option OrderState) :=
  answer_query;;
  let priority_key := Py.replace_empty "priority_" data in
  set_user_data (with_priority priority_key);;
  d ← gets ud;
  dep ← liftR (rbind (field_get "department" (department d)) (dict_get DEPARTMENTS));
  prod ← liftR (field_get "product" (product d));
  qty ← liftR (field_get "quantity" (quantity d));
  pri ← liftR (rbind (field_get "priority" (priority d)) (dict_get PRIORITIES));
  confirmation_text ← liftR (py_format Messages.order_confirmation
    [("department", dep); ("product", prod); ("quantity", qty); ("priority", pri)]);
  _send_message_with_retry (effective_chat u) confirmation_text (Some confirm_keyboard);;
  mret (Some CONFIRMING_ORDER).

(** The loop of [_send_order_to_admins]: every failure is caught and
    logged, then the next administrator is served. *)
Fixpoint send_to_each (message : string) (ids : list Z) : M unit :=
  match ids with
  | [] => mret tt
  | admin_id :: rest =>
      catch (_send_message_with_retry admin_id message None;; mret tt)
            (fun _ => mret tt);;
      send_to_each message rest
  end.

(** [Bot._send_order_to_admins] *)
Definition _send_order_to_admins (message : string) : M unit :=
  admin_ids ← gets (fun s => get_admin_ids (um s));
  send_to_each message admin_ids.

(** The keyword arguments of [ORDER_TEMPLATE.format(...)], evaluated in
    order (a missing key raises KeyError). *)
Definition order_args (user : TgUser) (d : UserData) (current_date : string)
    : Result (list (string * string)) :=
  rbind (rbind (field_get "department" (department d)) (dict_get DEPARTMENTS)) (fun dep =>
  rbind (field_get "product" (product d)) (fun prod =>
  rbind (field_get "quantity" (quantity d)) (fun qty =>
  rbind (rbind (field_get "priority" (priority d)) (dict_get PRIORITIES)) (fun pri =>
  Ok [("user_name", full_name user); ("username", username_or_default user);
      ("department", dep); ("product", prod); ("quantity", qty);
      ("priority", pri); ("date", current_date)])))).

Definition order_message (user : TgUser) (d : UserData) (now : DateTime) : Result string :=
  rbind (order_args user d (strftime_order now)) (py_format Messages.ORDER_TEMPLATE).

(** [Bot.confirm_order]; [data] is [query.data]. *)
Definition confirm_order (u : Update) (data : string) : M (option OrderState) :=
  answer_query;;
  (if String.eqb data "confirm_yes" then
     d ← gets ud;
     now ← gets clock;
     msg ← liftR (order_message (effective_user u) d now);
     _send_order_to_admins msg;;
     _send_message_with_retry (effective_chat u) Messages.order_success None;;
     mret tt
   else
     _send_message_with_retry (effective_chat u) Messages.order_cancelled None;;
     mret tt);;
  set_user_data (fun _ => empty_user_data);;
  mret END.

(** [Bot.cancel_command] *)
Definition cancel_command (u : Update) : M (option OrderState) :=
  allowed ← gets (fun s => is_allowed (um s) (user_id (effective_user u)));
  if negb allowed then
    _send_message_with_retry (effective_chat u) Messages.access_denied None;; mret END
  else (
    in_progress ← gets (fun s => order_in_progress (ud s));
    if negb in_progress then
      _send_message_with_retry (effective_chat u) Messages.cancel_not_available None;;
      mret END
    else
      set_user_data (fun _ => empty_user_data);;
      _send_message_with_retry (effective_chat u) Messages.cancel_success None;;
      mret END).

(** [Bot.order_in_progress] *)
Definition order_in_progress_handler (u : Update) : M unit :=
  _send_message_with_retry (effective_chat u) Messages.order_already_in_progress None;;
  mret tt.

(** [Bot.cancel_not_available] *)
Definition cancel_not_available (u : Update) : M unit :=
  _send_message_with_retry (effective_chat u) Messages.cancel_not_available None;;
  mret tt.

(** [Bot.error_handler]: only logs RetryAfter and network errors; for
    other errors tries once to tell the chat. *)
Definition error_handler (u : Update) (e : Exn) : M unit :=
  match e with
  | ExnRetryAfter _ | ExnNetwork => mret tt
  | _ => catch (send_message (effective_chat u) Messages.error_occurred None) (fun _ => mret tt)
  end.

(** The [states] and [fallbacks] of the [ConversationHandler] once a
    conversation is active. *)
Definition state_route (st : OrderState) (u : Update) : option (M (option OrderState)) :=
  match st, kind u with
  | SELECTING_DEPARTMENT, UCallback d =>
      if Py.startswith d "dept_" then Some (department_selected u d) else None
  | ENTERING_PRODUCT, UText t => Some (product_entered u t)
  | ENTERING_QUANTITY, UText t => Some (quantity_entered u t)
  | SELECTING_PRIORITY, UCallback d =>
      if Py.startswith d "priority_" then Some (priority_selected u d) else None
  | CONFIRMING_ORDER, UCallback d =>
      if Py.startswith d "confirm_" then Some (confirm_order u d) else None
  | _, _ => None
  end.

Definition is_command (name : string) (u : Update) : bool :=
  match kind u with UCommand n => String.eqb n name | _ => false end.

(** [ConversationHandler.check_update]: the entry point when no
    conversation is active; otherwise the current state's handlers, then
    the fallbacks. *)
Definition conversation_route (conv : option OrderState) (u : Update)
    : option (M (option OrderState)) :=
  match conv with
  | None => if is_command "order" u then Some (order_command u) else None
  | Some st =>
      match state_route st u with
      | Some h => Some h
      | None => if is_command "cancel" u then Some (cancel_command u) else None
      end
  end.

(** The handler the application picks: the first of group 0, in the order
    of [_setup_handlers], whose check accepts the update. *)
Inductive Route :=
  | RNone
  | RPlain (m : M unit)
  | RConv (m : M (option OrderState)).

Definition route (conv : option OrderState) (u : Update) : Route :=
  if is_command "start" u then RPlain (start u)
  else if is_command "help" u then RPlain (help_command u)
  else if is_command "reload_users" u then RPlain (bot_reload_users u)
  else match conversation_route conv u with
       | Some h => RConv h
       | None =>
           if is_command "order" u then RPlain (order_in_progress_handler u)
           else if is_command "cancel" u then RPlain (cancel_not_available u)
           else RNone
       end.

(** [Application.process_update] for one update of the user: the
    conversation moves to the state the handler returned; when the handler
    raises, the state is kept and the error handler runs. *)
Definition process_update (conv : option OrderState) (u : Update) (s : St)
    : option OrderState * St :=
  match route conv u with
  | RNone => (conv, s)
  | RPlain h =>
      match h s with
      | (Ok _, s') => (conv, s')
      | (Err e, s') => (conv, snd (error_handler u e s'))
      end
  | RConv h =>
      match h s with
      | (Ok next, s') => (next, s')
      | (Err e, s') => (conv, snd (error_handler u e s'))
      end
  end.

(** A run of several updates of the same user. *)
Fixpoint process_all (conv : option OrderState) (us : list Update) (s : St)
    : option OrderState * St :=
  match us with
  | [] => (conv, s)
  | u :: rest => let '(c', s') := process_update conv u s in process_all c' rest s'
  end.

End Handlers.

(* ------------------------------------------------------------------ *)
(** ** Observing runs *)

(** The transport's next answer and the state without it. *)
Definition pop (s : St) : Outcome * St :=
  match sched s with
  | [] => (OSent, s)
  | o :: rest => (o, set_sched rest s)
  end.

(** A computation that leaves a component of the state alone. *)
Definition keeps {X A} (f : St -> X) (m : M A) : Prop := forall s, f (snd (m s)) = f s.

(** The send attempts of a trace: recipient, text and keyboard. *)
Definition sends_of (l : list Event) : list (Z * string * option Keyboard) :=
  omap (fun e => match e with EvSend c t mk _ => Some (c, t, mk) | _ => None end) l.

(** Sample data for concrete runs: two catalogs, a submitter, an
    administrator, and a bot state with a given transport schedule. *)
Definition sample_departments : gmap string string :=
  <["it" := "IT"]> (<["office" := "Office supplies"]> ∅).
Definition sample_priorities : gmap string string :=
  <["high" := "High"]> (<["low" := "Low"]> ∅).
Definition ann : TgUser := mkTgUser 42 "Ann" (Some "Lee") (Some "ann").
Definition ann_says (k : UpdateKind) : Update := mkUpdate ann 42 k.
Definition sample_clock : DateTime := mkDateTime 2026 3 7 9 5.
Definition sample_um : UserManager := mkUserManager {[1%Z]} {[1%Z; 42%Z]}.
Definition sample_state (um0 : UserManager) (d : UserData) (sch : list Outcome) : St :=
  mkSt um0 (CfgParsed [] []) d sch [] sample_clock.

(** The configurations on which [_load_users] raises: the read fails, or
    the ADMINS section yields no valid identifier. *)
Definition load_fails (cfg : ConfigFile) : Prop :=
  match cfg with
  | CfgUnparsable _ => True
  | CfgParsed d secs => collect_ids (section_keys d secs "ADMINS") = ∅
  end.

(** A users.cfg with one administrator (with a trailing comment) who is not
    listed among the users, and one with no valid administrator. *)
Definition cfg_admin7 : ConfigFile :=
  CfgParsed [] [("ADMINS", [Py.utf8_decode "7 # boss"]);
                ("USERS", [Py.utf8_decode "8"; Py.utf8_decode "x"])].
Definition cfg_no_admin : ConfigFile :=
  CfgParsed [] [("ADMINS", [Py.utf8_decode "abc"; Py.utf8_decode "# 5"]);
                ("USERS", [Py.utf8_decode "8"])].

(** Ann, an administrator, starts an order, then edits users.cfg so that
    they are no longer listed ([cfg_admin7]) and runs /reload_users while the
    conversation is at ENTERING_QUANTITY; [last] is the user's next update. *)
Definition revocation_run (last : UpdateKind) : option OrderState * St :=
  process_all sample_departments sample_priorities None
    [ann_says (UCommand "order"); ann_says (UCallback "dept_it"); ann_says (UText "Mouse");
     ann_says (UCommand "reload_users"); ann_says last]
    (mkSt (mkUserManager {[42%Z]} {[42%Z]}) cfg_admin7 empty_user_data [] [] sample_clock).

(** Ann starts an order, picks department "it", enters the product
    "Mouse", then sends /cancel, whose report fails with a TelegramError
    (every other call of the transport succeeds); [rest] are the user's
    next updates. *)
Definition failed_cancel_run (rest : list UpdateKind) : option OrderState * St :=
  process_all sample_departments sample_priorities None
    (map ann_says ([UCommand "order"; UCallback "dept_it"; UText "Mouse"; UCommand "cancel"] ++ rest))
    (sample_state sample_um empty_user_data [OSent; OSent; OSent; OSent; OFailed]).

(** Ann walks through the whole conversation (department "it", product
    "Mouse", quantity "10", priority "high") and answers the confirmation
    with the payload [last]; [sch] is the transport's schedule. *)
Definition full_order (last : string) : list Update :=
  [ann_says (UCommand "order"); ann_says (UCallback "dept_it"); ann_says (UText "Mouse");
   ann_says (UText "10"); ann_says (UCallback "priority_high"); ann_says (UCallback last)].

Definition order_run (last : string) (sch : list Outcome) : option OrderState * St :=
  process_all sample_departments sample_priorities None (full_order last)
    (sample_state sample_um empty_user_data sch).

(** The texts of the messages sent to chat [c], in order. *)
Definition sends_to (c : Z) (l : list Event) : list string :=
  omap (fun e => match e with
                 | EvSend c' t _ _ => if Z.eqb c c' then Some t else None
                 | _ => None
                 end) l.

(** Decimal numerals, for stating what [_parse_user_id] reads: code
    points that all have a decimal value, and the number they denote. *)
Definition decimal_digits (ds : Py.text) : Prop :=
  Forall (fun c => Py.decimal_value c <> None) ds.

Definition dec_value (ds : Py.text) : Z :=
  fold_left (fun acc c => acc * 10 + default 0 (Py.decimal_value c))%Z ds 0%Z.

(** Texts made only of the characters [str.strip()] removes. *)
Definition all_space (s : Py.text) : Prop :=
  Forall (fun c => Py.is_space c = true) s.

(** The state after each administrator of [ids] was sent [message] by a
    transport that delivers everything. *)
Definition relay_events (message : string) (ids : list Z) (s : St) : St :=
  fold_left (fun s a => add_event (EvSend a message None OSent) s) ids s.

(* ================================================================== *)
(** * Properties *)

(** ** Running the monad *)

Lemma bind_run {A B} (m : M A) (k : A -> M B) (s : St) :
  (m ≫= k) s = match m s with (Ok a, s') => k a s' | (Err e, s') => (Err e, s') end.
Proof. reflexivity. Qed.

Lemma catch_run {A} (m : M A) (h : Exn -> M A) (s : St) :
  catch m h s = match m s with (Err e, s') => h e s' | r => r end.
Proof. reflexivity. Qed.

Lemma send_message_run c t mk s :
  send_message c t mk s =
    (match exn_of_outcome (fst (pop s)) with None => Ok tt | Some e => Err e end,
     add_event (EvSend c t mk (fst (pop s))) (snd (pop s))).
Proof.
  unfold send_message, pop, next_outcome. rewrite !bind_run.
  destruct (sched s) as [|o rest]; simpl; [reflexivity|].
  destruct (exn_of_outcome o); reflexivity.
Qed.

Section Frame.
Context {X : Type} (f : St -> X).
Hypothesis f_sched : forall o s, f (set_sched o s) = f s.
Hypothesis f_event : forall e s, f (add_event e s) = f s.

Lemma keeps_ret {A} (a : A) : keeps f (mret a).
Proof. intros s. reflexivity. Qed.

Lemma keeps_raise {A} e : keeps f (@raise A e).
Proof. intros s. reflexivity. Qed.

Lemma keeps_bind {A B} (m : M A) (k : A -> M B) :
  keeps f m -> (forall a, keeps f (k a)) -> keeps f (m ≫= k).
Proof.
  intros Hm Hk s. rewrite bind_run. specialize (Hm s).
  destruct (m s) as [[a|e] s'] eqn:E; simpl in *; [rewrite Hk|]; exact Hm.
Qed.

Lemma keeps_catch {A} (m : M A) h :
  keeps f m -> (forall e, keeps f (h e)) -> keeps f (catch m h).
Proof.
  intros Hm Hh s. rewrite catch_run. specialize (Hm s).
  destruct (m s) as [[a|e] s'] eqn:E; simpl in *; [exact Hm|rewrite Hh; exact Hm].
Qed.

Lemma keeps_send_message c t mk : keeps f (send_message c t mk).
Proof.
  intros s. rewrite send_message_run. simpl. rewrite f_event.
  unfold pop. destruct (sched s); simpl; [reflexivity|apply f_sched].
Qed.

Lemma keeps_answer_query : keeps f answer_query.
Proof.
  intros s. unfold answer_query, next_outcome. rewrite !bind_run.
  destruct (sched s) as [|o rest]; simpl; [apply f_event|].
  destruct (exn_of_outcome o); simpl; rewrite f_event; apply f_sched.
Qed.

Lemma keeps_sleep d : keeps f (sleep d).
Proof. intros s. apply f_event. Qed.

Lemma keeps_retry_loop c t mk mr n : keeps f (retry_loop c t mk mr n).
Proof.
  induction n as [|n IH]; simpl.
  - apply keeps_ret.
  - apply keeps_catch.
    + apply keeps_bind; [apply keeps_send_message|intros; apply keeps_ret].
    + intros [d| | | | |]; try apply keeps_raise.
      * apply keeps_bind; [apply keeps_sleep|intros; apply IH].
      * destruct (Nat.ltb _ _); [apply keeps_bind; [apply keeps_sleep|intros; apply IH]|apply keeps_raise].
Qed.

Lemma keeps_send_with_retry c t mk : keeps f (_send_message_with_retry c t mk).
Proof. apply keeps_retry_loop. Qed.

Lemma keeps_error_handler u e : keeps f (error_handler u e).
Proof.
  destruct e; simpl; try apply keeps_ret;
    apply keeps_catch; [apply keeps_send_message| |apply keeps_send_message| |apply keeps_send_message| |apply keeps_send_message|];
    intros; apply keeps_ret.
Qed.

Lemma keeps_send_to_each msg ids : keeps f (send_to_each msg ids).
Proof.
  induction ids as [|a ids IH]; simpl; [apply keeps_ret|].
  apply keeps_bind; [|intros; apply IH].
  apply keeps_catch; [|intros; apply keeps_ret].
  apply keeps_bind; [apply keeps_send_with_retry|intros; apply keeps_ret].
Qed.

End Frame.

Lemma ud_set_sched o s : ud (set_sched o s) = ud s. Proof. reflexivity. Qed.
Lemma ud_add_event e s : ud (add_event e s) = ud s. Proof. reflexivity. Qed.
Lemma um_set_sched o s : um (set_sched o s) = um s. Proof. reflexivity. Qed.
Lemma um_add_event e s : um (add_event e s) = um s. Proof. reflexivity. Qed.
Lemma clock_set_sched o s : clock (set_sched o s) = clock s. Proof. reflexivity. Qed.
Lemma clock_add_event e s : clock (add_event e s) = clock s. Proof. reflexivity. Qed.

Lemma trace_set_sched o s : trace (set_sched o s) = trace s. Proof. reflexivity. Qed.
Lemma trace_add_event e s : trace (add_event e s) = (trace s ++ [e])%list. Proof. reflexivity. Qed.

Lemma sends_of_app l1 l2 : sends_of (l1 ++ l2) = (sends_of l1 ++ sends_of l2)%list.
Proof. apply omap_app. Qed.

(** The loop makes at most one attempt per iteration, always to the same
    recipient, and the first iteration always makes one. *)
Ltac split4 := refine (conj _ (conj _ (conj _ _))).

Lemma retry_loop_trace c t mk mr n s :
  exists l, trace (snd (retry_loop c t mk mr n s)) = (trace s ++ l)%list /\
    length (sends_of l) <= n /\
    Forall (fun x => x = (c, t, mk)) (sends_of l) /\
    (n <> O -> exists o l', l = EvSend c t mk o :: l').
Proof.
  revert s. induction n as [|n IH]; intros s.
  - exists []. rewrite app_nil_r. split4; cbn; [reflexivity|lia|constructor|]. intros []; reflexivity.
  - cbn [retry_loop]. rewrite catch_run, bind_run, send_message_run.
    unfold pop. destruct (sched s) as [|o rest].
    + cbn. exists [EvSend c t mk OSent]. split4; cbn; try lia; eauto.
    + destruct o as [|d| | ]; cbn -[retry_loop Nat.ltb Nat.sub].
      * exists [EvSend c t mk OSent]. split4; cbn; try lia; eauto.
      * rewrite bind_run. cbn -[retry_loop].
        destruct (IH (add_event (EvSleep d) (add_event (EvSend c t mk (ORetryAfter d)) (set_sched rest s))))
          as (l & Hl & Hlen & Hall & _).
        rewrite Hl. exists (EvSend c t mk (ORetryAfter d) :: EvSleep d :: l).
        unfold sends_of in *. cbn. split4;
          [rewrite <- ?app_assoc; reflexivity|lia|constructor; eauto|intros _; eauto].
      * destruct (Nat.ltb _ _).
        -- rewrite bind_run. cbn -[retry_loop].
           match goal with |- context [add_event (EvSleep ?x)] => set (w := x) end.
           destruct (IH (add_event (EvSleep w) (add_event (EvSend c t mk ONetwork) (set_sched rest s))))
             as (l & Hl & Hlen & Hall & _).
           rewrite Hl. exists (EvSend c t mk ONetwork :: EvSleep w :: l).
           unfold sends_of in *. cbn. split4;
          [rewrite <- ?app_assoc; reflexivity|lia|constructor; eauto|intros _; eauto].
        -- cbn. exists [EvSend c t mk ONetwork]. split4; cbn; try lia; eauto.
      * exists [EvSend c t mk OFailed]. split4; cbn; try lia; eauto.
Qed.

(** ** C2: rate-limit retries and the retry budget *)

(** C2 (as stated, refuted): three rate-limit answers in a row exhaust the
    three attempts of [_send_message_with_retry]; the success the transport
    would give at a fourth attempt is never asked for, and the call returns
    without having delivered the message. *)
Lemma C2_rate_limits_exhaust_budget :
  let s := sample_state sample_um empty_user_data
             [ORetryAfter 1; ORetryAfter 1; ORetryAfter 1; OSent] in
  fst (_send_message_with_retry 1 "order" None s) = Ok None /\
  trace (snd (_send_message_with_retry 1 "order" None s)) =
    [EvSend 1 "order" None (ORetryAfter 1); EvSleep 1;
     EvSend 1 "order" None (ORetryAfter 1); EvSleep 1;
     EvSend 1 "order" None (ORetryAfter 1); EvSleep 1] /\
  sched (snd (_send_message_with_retry 1 "order" None s)) = [OSent].
Proof. vm_compute. split; [reflexivity|split; reflexivity]. Qed.

(** C2 (amended): a rate-limit answer makes [_send_message_with_retry] wait
    the signalled duration and try the same recipient again, but that retry
    uses up one iteration of the same [range(3)] loop as transient-failure
    retries: every call makes between one and three send attempts, all to
    the same recipient with the same text. *)
Theorem C2_rate_limit_retry_shares_budget (c : Z) (t : string) (mk : option Keyboard) :
  (forall s, exists l,
     trace (snd (_send_message_with_retry c t mk s)) = (trace s ++ l)%list /\
     1 <= length (sends_of l) <= 3 /\
     Forall (fun x => x = (c, t, mk)) (sends_of l)) /\
  (forall n u cfg d0 d rest tr clk,
     retry_loop c t mk 3 (S n) (mkSt u cfg d0 (ORetryAfter d :: rest) tr clk) =
     retry_loop c t mk 3 n
       (mkSt u cfg d0 rest (tr ++ [EvSend c t mk (ORetryAfter d); EvSleep d])%list clk)).
Proof.
  split.
  - intros s. destruct (retry_loop_trace c t mk 3 3 s) as (l & Hl & Hlen & Hall & Hfirst).
    exists l. split; [exact Hl|]. split; [|exact Hall].
    destruct (Hfirst ltac:(discriminate)) as (o & l' & ->). unfold sends_of in *. cbn in *. lia.
  - intros n u cfg d0 d rest tr clk. cbn [retry_loop].
    rewrite catch_run, bind_run, send_message_run. cbn.
    rewrite bind_run. cbn. f_equal. unfold add_event, set_sched. cbn. rewrite <- app_assoc. reflexivity.
Qed.

(** ** C5: the fan-out to the administrators *)

Lemma send_with_retry_first_attempt c t mk s :
  exists o l, trace (snd (_send_message_with_retry c t mk s)) =
              (trace s ++ EvSend c t mk o :: l)%list.
Proof.
  destruct (retry_loop_trace c t mk 3 3 s) as (l & Hl & _ & _ & Hfirst).
  destruct (Hfirst ltac:(discriminate)) as (o & l' & ->). eauto.
Qed.

Lemma send_to_each_spec message ids s :
  fst (send_to_each message ids s) = Ok tt /\
  exists l, trace (snd (send_to_each message ids s)) = (trace s ++ l)%list /\
    forall a, a ∈ ids -> exists o, EvSend a message None o ∈ l.
Proof.
  revert s. induction ids as [|a ids IH]; intros s.
  - split; [reflexivity|]. exists []. rewrite app_nil_r. split; [reflexivity|].
    intros a Ha. inversion Ha.
  - cbn [send_to_each]. rewrite bind_run, catch_run, bind_run.
    destruct (send_with_retry_first_attempt a message None s) as (o & l1 & Hl1).
    destruct (_send_message_with_retry a message None s) as [[r|e] s1] eqn:E;
      cbn [snd] in Hl1; cbn;
      destruct (IH s1) as [Hok (l2 & Hl2 & Hin)]; (split; [exact Hok|]);
      exists ((EvSend a message None o :: l1) ++ l2)%list;
      (split; [rewrite Hl2, Hl1, <- app_assoc; reflexivity|]);
      intros b Hb; apply elem_of_cons in Hb as [->|Hb];
      [exists o; left| destruct (Hin b Hb) as [o' Ho']; exists o'; apply elem_of_app; right; exact Ho'
      |exists o; left| destruct (Hin b Hb) as [o' Ho']; exists o'; apply elem_of_app; right; exact Ho'].
Qed.

(** C5: whatever the transport answers for each administrator (sent, rate
    limited, transient failures past the budget, permanent failure),
    [_send_order_to_admins] returns normally, and every administrator of
    the registry gets at least one send attempt of the order message. *)
Theorem C5_relay_never_raises_and_reaches_all (message : string) (s : St) :
  fst (_send_order_to_admins message s) = Ok tt /\
  forall a, a ∈ admins (um s) ->
    exists o, EvSend a message None o ∈ trace (snd (_send_order_to_admins message s)).
Proof.
  unfold _send_order_to_admins, gets. rewrite bind_run.
  destruct (send_to_each_spec message (get_admin_ids (um s)) s) as [Hok (l & Hl & Hin)].
  split; [exact Hok|].
  intros a Ha. rewrite Hl. destruct (Hin a) as [o Ho].
  - unfold get_admin_ids. apply elem_of_elements. exact Ha.
  - exists o. apply elem_of_app. right. exact Ho.
Qed.

(** ** C6 and C7: loading the registry *)

Lemma collect_ids_elem ks k id :
  k ∈ ks -> parse_user_id k = Some id -> id ∈ collect_ids (Some ks).
Proof.
  intros Hk Hp. cbn. apply elem_of_list_to_set, list_elem_of_omap. eauto.
Qed.

Lemma load_users_err cfg um0 e um1 :
  _load_users cfg um0 = (Err e, um1) -> um1 = um0.
Proof.
  destruct cfg as [err|d secs]; cbn.
  - intros H. inversion H. reflexivity.
  - destruct (decide _); intros H; inversion H. reflexivity.
Qed.

Lemma load_users_fails cfg um0 :
  load_fails cfg -> exists e, _load_users cfg um0 = (Err e, um0).
Proof.
  destruct cfg as [err|d secs]; cbn; intros H.
  - eauto.
  - rewrite decide_True by exact H. eauto.
Qed.

(** C6: a reload that raises (an unreadable users.cfg, or no valid
    administrator) leaves [is_admin] and [is_allowed] as they were for
    every identifier; the error is raised to the caller, and the
    /reload_users command of an administrator reports it. *)
Theorem C6_failed_reload_keeps_registry (cfg : ConfigFile) (um0 : UserManager) :
  (forall e um1, reload_users cfg um0 = (Err e, um1) ->
     forall id, is_admin um1 id = is_admin um0 id /\ is_allowed um1 id = is_allowed um0 id) /\
  (load_fails cfg -> exists e, fst (reload_users cfg um0) = Err e) /\
  (forall u s, um s = um0 -> users_cfg s = cfg -> load_fails cfg ->
     is_admin um0 (user_id (effective_user u)) = true ->
     um (snd (bot_reload_users u s)) = um0 /\
     exists o, EvSend (effective_chat u) Messages.reload_error None o
               ∈ trace (snd (bot_reload_users u s))).
Proof.
  split; [|split].
  - intros e um1 H id. apply load_users_err in H. subst. split; reflexivity.
  - intros Hf. destruct (load_users_fails cfg um0 Hf) as [e He].
    unfold reload_users. rewrite He. eauto.
  - intros u s Hum Hcfg Hf Hadm.
    destruct (load_users_fails cfg um0 Hf) as [e He].
    unfold bot_reload_users, gets. rewrite bind_run. cbn [fst snd].
    rewrite Hum, Hadm. cbn [negb]. rewrite catch_run, bind_run.
    unfold um_reload_users, reload_users. rewrite Hcfg, Hum, He.
    unfold reply_text. rewrite send_message_run. cbn [snd].
    split.
    + unfold pop. destruct (sched _); reflexivity.
    + exists (fst (pop (set_um um0 s))). cbn. apply elem_of_app. right. left.
Qed.

(** C7: after a load (or reload) that succeeds, every identifier parsed from
    the ADMINS section is an administrator and is allowed, whether or not
    the USERS section lists it; the administrators are a subset of the
    allowed users. *)
Theorem C7_admins_are_allowed (cfg : ConfigFile) (um0 um1 : UserManager)
    (H : _load_users cfg um0 = (Ok tt, um1) \/ reload_users cfg um0 = (Ok tt, um1)) :
  admins um1 ⊆ allowed_users um1 /\
  forall d secs ks k id, cfg = CfgParsed d secs -> section_keys d secs "ADMINS" = Some ks ->
    k ∈ ks -> parse_user_id k = Some id ->
    is_admin um1 id = true /\ is_allowed um1 id = true.
Proof.
  unfold reload_users in H. assert (H' : _load_users cfg um0 = (Ok tt, um1)) by tauto.
  clear H. destruct cfg as [err|d secs]; cbn in H'; [discriminate|].
  destruct (decide _) as [_|Hne]; [discriminate|].
  inversion H'; subst um1; clear H'. split.
  - cbn. set_solver.
  - intros d' secs' ks k id Heq Hks Hk Hp. inversion Heq; subst d' secs'.
    pose proof (collect_ids_elem ks k id Hk Hp) as Hid. rewrite <- Hks in Hid.
    unfold is_admin, is_allowed. cbn. split; apply bool_decide_eq_true; set_solver.
Qed.

Lemma C7_admins_are_allowed_witness :
  _load_users cfg_admin7 sample_um = (Ok tt, mkUserManager {[7%Z]} {[7%Z; 8%Z]}) /\
  is_allowed (mkUserManager {[7%Z]} {[7%Z; 8%Z]}) 7 = true.
Proof.
  assert (H : _load_users cfg_admin7 sample_um = (Ok tt, mkUserManager {[7%Z]} {[7%Z; 8%Z]}))
    by (vm_compute; reflexivity).
  split; [exact H|].
  exact (proj2 (proj2 (C7_admins_are_allowed cfg_admin7 sample_um _ (or_introl H))
    [] [("ADMINS", [Py.utf8_decode "7 # boss"]);
        ("USERS", [Py.utf8_decode "8"; Py.utf8_decode "x"])]
    [Py.utf8_decode "7 # boss"] (Py.utf8_decode "7 # boss") 7%Z
    eq_refl eq_refl ltac:(left) eq_refl)).
Defined.

(** ** Routing of updates and reliable runs *)

Section Routing.
Variables DEPARTMENTS PRIORITIES : gmap string string.
Variables (user : TgUser) (chat : Z).

Lemma route_order_active st :
  route DEPARTMENTS PRIORITIES (Some st) (mkUpdate user chat (UCommand "order")) =
  RPlain (order_in_progress_handler (mkUpdate user chat (UCommand "order"))).
Proof. destruct st; reflexivity. Qed.

Lemma route_order_idle :
  route DEPARTMENTS PRIORITIES None (mkUpdate user chat (UCommand "order")) =
  RConv (order_command DEPARTMENTS (mkUpdate user chat (UCommand "order"))).
Proof. reflexivity. Qed.

Lemma route_cancel_active st :
  route DEPARTMENTS PRIORITIES (Some st) (mkUpdate user chat (UCommand "cancel")) =
  RConv (cancel_command (mkUpdate user chat (UCommand "cancel"))).
Proof. destruct st; reflexivity. Qed.

Lemma route_cancel_idle :
  route DEPARTMENTS PRIORITIES None (mkUpdate user chat (UCommand "cancel")) =
  RPlain (cancel_not_available (mkUpdate user chat (UCommand "cancel"))).
Proof. reflexivity. Qed.

Lemma route_text_idle t :
  route DEPARTMENTS PRIORITIES None (mkUpdate user chat (UText t)) = RNone.
Proof. reflexivity. Qed.

Lemma route_callback_idle d :
  route DEPARTMENTS PRIORITIES None (mkUpdate user chat (UCallback d)) = RNone.
Proof. reflexivity. Qed.

Lemma route_department d :
  route DEPARTMENTS PRIORITIES (Some SELECTING_DEPARTMENT) (mkUpdate user chat (UCallback d)) =
  if Py.startswith d "dept_"
  then RConv (department_selected (mkUpdate user chat (UCallback d)) d) else RNone.
Proof. unfold route. cbn. destruct (Py.startswith d "dept_"); reflexivity. Qed.

Lemma route_confirm d :
  route DEPARTMENTS PRIORITIES (Some CONFIRMING_ORDER) (mkUpdate user chat (UCallback d)) =
  if Py.startswith d "confirm_"
  then RConv (confirm_order DEPARTMENTS PRIORITIES (mkUpdate user chat (UCallback d)) d)
  else RNone.
Proof. unfold route. cbn. destruct (Py.startswith d "confirm_"); reflexivity. Qed.

End Routing.

Lemma send_with_retry_reliable c t mk s :
  sched s = [] ->
  _send_message_with_retry c t mk s = (Ok (Some tt), add_event (EvSend c t mk OSent) s).
Proof.
  intros H. unfold _send_message_with_retry, _send_message_with_retry_n. cbn [retry_loop].
  rewrite catch_run, bind_run, send_message_run. unfold pop. rewrite H. reflexivity.
Qed.

Lemma answer_query_reliable s :
  sched s = [] -> answer_query s = (Ok tt, add_event (EvAnswer OSent) s).
Proof. intros H. unfold answer_query, next_outcome. rewrite bind_run. rewrite H. reflexivity. Qed.

Lemma sched_add_event e s : sched (add_event e s) = sched s. Proof. reflexivity. Qed.
Lemma sched_set_ud x s : sched (set_ud x s) = sched s. Proof. reflexivity. Qed.
Lemma ud_set_ud x s : ud (set_ud x s) = x. Proof. reflexivity. Qed.
Lemma um_set_ud x s : um (set_ud x s) = um s. Proof. reflexivity. Qed.
Lemma trace_set_ud x s : trace (set_ud x s) = trace s. Proof. reflexivity. Qed.

Lemma ud_send_with_retry c t mk s :
  ud (snd (_send_message_with_retry c t mk s)) = ud s.
Proof. apply (keeps_send_with_retry ud ud_set_sched ud_add_event). Qed.

Lemma um_send_with_retry c t mk s :
  um (snd (_send_message_with_retry c t mk s)) = um s.
Proof. apply (keeps_send_with_retry um um_set_sched um_add_event). Qed.

Lemma ud_error_handler u e s : ud (snd (error_handler u e s)) = ud s.
Proof. apply (keeps_error_handler ud ud_set_sched ud_add_event). Qed.

Lemma um_error_handler u e s : um (snd (error_handler u e s)) = um s.
Proof. apply (keeps_error_handler um um_set_sched um_add_event). Qed.

Lemma trace_pop s : trace (snd (pop s)) = trace s.
Proof. unfold pop. destruct (sched s); reflexivity. Qed.
Lemma ud_pop s : ud (snd (pop s)) = ud s.
Proof. unfold pop. destruct (sched s); reflexivity. Qed.
Lemma um_pop s : um (snd (pop s)) = um s.
Proof. unfold pop. destruct (sched s); reflexivity. Qed.

Lemma trace_error_handler u e s :
  exists l, trace (snd (error_handler u e s)) = (trace s ++ l)%list.
Proof.
  destruct e; cbn; try (exists []; rewrite app_nil_r; reflexivity);
    rewrite catch_run, send_message_run;
    destruct (exn_of_outcome _); cbn; rewrite trace_pop; eexists; reflexivity.
Qed.

(** ** C9: a second /order during an active conversation *)

(** /order during an active conversation: "already in progress", nothing
    else changes. *)
Lemma order_active_run (DEPARTMENTS PRIORITIES : gmap string string)
    (st : OrderState) (user : TgUser) (chat : Z) (s : St) :
  let r := process_update DEPARTMENTS PRIORITIES (Some st)
             (mkUpdate user chat (UCommand "order")) s in
  fst r = Some st /\ ud (snd r) = ud s /\
  exists o l, trace (snd r) =
    (trace s ++ EvSend chat Messages.order_already_in_progress None o :: l)%list.
Proof.
  cbv zeta. unfold process_update. rewrite route_order_active.
  unfold order_in_progress_handler. cbn -[_send_message_with_retry]. rewrite !bind_run.
  destruct (send_with_retry_first_attempt chat Messages.order_already_in_progress None s)
    as (o & l & Hl).
  pose proof (ud_send_with_retry chat Messages.order_already_in_progress None s) as Hud.
  destruct (_send_message_with_retry chat Messages.order_already_in_progress None s)
    as [[a|e] s1] eqn:E; cbn [snd] in Hl, Hud; cbn -[error_handler].
  - split; [reflexivity|split; [exact Hud|]]. eauto.
  - split; [reflexivity|split; [rewrite ud_error_handler; exact Hud|]].
    destruct (trace_error_handler (mkUpdate user chat (UCommand "order")) e s1) as [l' Hl'].
    rewrite Hl', Hl. exists o, (l ++ l')%list. rewrite <- app_assoc. reflexivity.
Qed.

(** C9: while a conversation is active (any of the five states), /order is
    not an entry point of the [ConversationHandler]; it falls through to
    [order_in_progress], which reports "already in progress". The state and
    every field of the user data (marker, department, product, quantity,
    priority) are exactly as before, whatever the transport does. *)
Theorem C9_second_order_keeps_draft (DEPARTMENTS PRIORITIES : gmap string string)
    (st : OrderState) (user : TgUser) (chat : Z) (s : St) :
  let r := process_update DEPARTMENTS PRIORITIES (Some st)
             (mkUpdate user chat (UCommand "order")) s in
  fst r = Some st /\ ud (snd r) = ud s /\
  exists o l, trace (snd r) =
    (trace s ++ EvSend chat Messages.order_already_in_progress None o :: l)%list.
Proof. apply order_active_run. Qed.

(** ** C8: /order from a user who is not allowed *)

(** C8 (as stated, refuted): the access check of [order_command] only runs
    at the entry point. A user whose permission is revoked by a reload while
    their conversation is active gets "already in progress" from /order, not
    access-denied, and their draft and in-progress marker stay. *)
Lemma C8_revoked_user_keeps_draft :
  is_allowed (um (snd (revocation_run (UCommand "order")))) 42 = false /\
  fst (revocation_run (UCommand "order")) = Some ENTERING_QUANTITY /\
  ud (snd (revocation_run (UCommand "order"))) =
    mkUserData true (Some "it") (Some "Mouse") None None /\
  last (trace (snd (revocation_run (UCommand "order")))) =
    Some (EvSend 42 Messages.order_already_in_progress None OSent).
Proof. vm_compute. split; [reflexivity|split; [reflexivity|split; reflexivity]]. Qed.

Lemma order_denied_run (DEPARTMENTS PRIORITIES : gmap string string)
    (user : TgUser) (chat : Z) (s : St) :
  is_allowed (um s) (user_id user) = false ->
  exists s1, process_update DEPARTMENTS PRIORITIES None (mkUpdate user chat (UCommand "order")) s
             = (None, s1) /\ ud s1 = ud s /\
  exists o l, trace s1 = (trace s ++ EvSend chat Messages.access_denied None o :: l)%list.
Proof.
  intros Hdenied. unfold process_update. rewrite route_order_idle.
  unfold order_command, gets. cbn -[_send_message_with_retry is_allowed].
  rewrite !bind_run. cbn -[_send_message_with_retry is_allowed]. rewrite Hdenied.
  cbn -[_send_message_with_retry]. rewrite !bind_run.
  destruct (send_with_retry_first_attempt chat Messages.access_denied None s) as (o & l & Hl).
  pose proof (ud_send_with_retry chat Messages.access_denied None s) as Hud.
  destruct (_send_message_with_retry chat Messages.access_denied None s)
    as [[a|e] s1] eqn:E; cbn [snd] in Hl, Hud; cbn -[error_handler].
  - eexists. split; [reflexivity|split; [exact Hud|eauto]].
  - eexists. split; [reflexivity|split; [rewrite ud_error_handler; exact Hud|]].
    destruct (trace_error_handler (mkUpdate user chat (UCommand "order")) e s1) as [l' Hl'].
    rewrite Hl', Hl. exists o, (l ++ l')%list. rewrite <- app_assoc. reflexivity.
Qed.

(** C8 (amended): when no conversation of the user is active, /order from a
    user who is not allowed reports access-denied, leaves the conversation
    terminal and the user data exactly as it was (no draft field and no
    in-progress marker is written); selections and free text from that user
    are then not handled at all. *)
Theorem C8_denied_order_creates_nothing (DEPARTMENTS PRIORITIES : gmap string string)
    (user : TgUser) (chat : Z) (s : St)
    (Hdenied : is_allowed (um s) (user_id user) = false) :
  let r := process_update DEPARTMENTS PRIORITIES None (mkUpdate user chat (UCommand "order")) s in
  fst r = None /\ ud (snd r) = ud s /\
  (exists o l, trace (snd r) = (trace s ++ EvSend chat Messages.access_denied None o :: l)%list) /\
  (forall t s', process_update DEPARTMENTS PRIORITIES (fst r) (mkUpdate user chat (UText t)) s' = (None, s')) /\
  (forall d s', process_update DEPARTMENTS PRIORITIES (fst r) (mkUpdate user chat (UCallback d)) s' = (None, s')).
Proof.
  cbv zeta. destruct (order_denied_run DEPARTMENTS PRIORITIES user chat s Hdenied)
    as (s1 & Hr & Hud & Htr).
  rewrite Hr. cbn [fst snd].
  split; [reflexivity|split; [exact Hud|split; [exact Htr|split]]]; intros; reflexivity.
Qed.

Lemma C8_denied_order_creates_nothing_witness :
  is_allowed (mkUserManager {[1%Z]} {[1%Z]}) 42 = false /\
  ud (snd (process_update sample_departments sample_priorities None (ann_says (UCommand "order"))
             (sample_state (mkUserManager {[1%Z]} {[1%Z]}) empty_user_data []))) = empty_user_data.
Proof.
  assert (H : is_allowed (mkUserManager {[1%Z]} {[1%Z]}) 42 = false) by (vm_compute; reflexivity).
  split; [exact H|].
  exact (proj1 (proj2 (C8_denied_order_creates_nothing sample_departments sample_priorities ann 42
    (sample_state (mkUserManager {[1%Z]} {[1%Z]}) empty_user_data []) H))).
Defined.

(** ** C4: the cancel command *)

Lemma reply_run chat text s :
  ud (snd (_send_message_with_retry chat text None s)) = ud s /\
  um (snd (_send_message_with_retry chat text None s)) = um s /\
  exists o l, trace (snd (_send_message_with_retry chat text None s)) =
              (trace s ++ EvSend chat text None o :: l)%list.
Proof.
  split; [apply ud_send_with_retry|split; [apply um_send_with_retry|]].
  apply send_with_retry_first_attempt.
Qed.

Lemma error_handler_run u e s :
  ud (snd (error_handler u e s)) = ud s /\ um (snd (error_handler u e s)) = um s /\
  exists l, trace (snd (error_handler u e s)) = (trace s ++ l)%list.
Proof.
  split; [apply ud_error_handler|split; [apply um_error_handler|apply trace_error_handler]].
Qed.

Ltac reply_case E :=
  match type of E with
  | _send_message_with_retry ?c ?t None ?s0 = (?r, ?s1) =>
      let H := fresh "Hreply" in
      pose proof (reply_run c t s0) as H; rewrite E in H; cbn [snd] in H
  end.

(** Cancelling an order in progress: the user data is emptied before the
    report; the conversation ends only when the report goes out, otherwise
    the state is kept and the error handler runs. *)
Lemma cancel_allowed_run (DEPARTMENTS PRIORITIES : gmap string string)
    (user : TgUser) (chat : Z) (st : OrderState) (s : St) :
  is_allowed (um s) (user_id user) = true -> order_in_progress (ud s) = true ->
  process_update DEPARTMENTS PRIORITIES (Some st) (mkUpdate user chat (UCommand "cancel")) s =
  match _send_message_with_retry chat Messages.cancel_success None (set_ud empty_user_data s) with
  | (Ok _, s1) => (None, s1)
  | (Err e, s1) => (Some st, snd (error_handler (mkUpdate user chat (UCommand "cancel")) e s1))
  end.
Proof.
  intros Hallowed Hprog. unfold process_update. rewrite route_cancel_active.
  unfold cancel_command, gets, set_user_data, modify.
  repeat (first [rewrite Hallowed | rewrite Hprog | rewrite !bind_run];
          cbn -[_send_message_with_retry is_allowed error_handler set_ud]).
  destruct (_send_message_with_retry _ _ _ _) as [[a|e] s1]; reflexivity.
Qed.

(** /order with no active conversation from an allowed user with no order
    in progress: the marker is set before the department prompt is sent,
    whatever the transport does with the prompt. *)
Lemma order_fresh_run (DEPARTMENTS PRIORITIES : gmap string string)
    (user : TgUser) (chat : Z) (s : St) :
  is_allowed (um s) (user_id user) = true -> order_in_progress (ud s) = false ->
  let r := process_update DEPARTMENTS PRIORITIES None (mkUpdate user chat (UCommand "order")) s in
  ud (snd r) = with_order_in_progress true (ud s) /\
  exists o l, trace (snd r) =
    (trace s ++ EvSend chat Messages.order_select_department
                  (Some (department_keyboard DEPARTMENTS)) o :: l)%list.
Proof.
  intros Hallowed Hprog. cbv zeta. unfold process_update. rewrite route_order_idle.
  unfold order_command, gets, set_user_data, modify.
  repeat (first [rewrite Hallowed | rewrite Hprog | rewrite !bind_run];
          cbn -[_send_message_with_retry is_allowed error_handler set_ud department_keyboard]).
  set (s0 := set_ud (with_order_in_progress true (ud s)) s).
  destruct (send_with_retry_first_attempt chat Messages.order_select_department
              (Some (department_keyboard DEPARTMENTS)) s0) as (o & l & Hl).
  pose proof (ud_send_with_retry chat Messages.order_select_department
                (Some (department_keyboard DEPARTMENTS)) s0) as Hud.
  destruct (_send_message_with_retry chat Messages.order_select_department
              (Some (department_keyboard DEPARTMENTS)) s0)
    as [[a|e] s1] eqn:E; cbn [snd] in Hl, Hud; cbn -[error_handler].
  - split; [exact Hud|]. eauto.
  - split; [rewrite ud_error_handler; exact Hud|].
    destruct (trace_error_handler (mkUpdate user chat (UCommand "order")) e s1) as [l' Hl'].
    rewrite Hl', Hl. exists o, (l ++ l')%list. rewrite <- app_assoc. reflexivity.
Qed.

Lemma cancel_denied_run (DEPARTMENTS PRIORITIES : gmap string string)
    (user : TgUser) (chat : Z) (st : OrderState) (s : St) :
  is_allowed (um s) (user_id user) = false ->
  let r := process_update DEPARTMENTS PRIORITIES (Some st)
             (mkUpdate user chat (UCommand "cancel")) s in
  ud (snd r) = ud s /\ um (snd r) = um s /\
  exists o l, trace (snd r) = (trace s ++ EvSend chat Messages.access_denied None o :: l)%list.
Proof.
  intros Hdenied. cbv zeta. unfold process_update. rewrite route_cancel_active.
  unfold cancel_command, gets.
  repeat (first [rewrite Hdenied | rewrite !bind_run];
          cbn -[_send_message_with_retry is_allowed error_handler set_ud]).
  destruct (_send_message_with_retry chat Messages.access_denied None s)
    as [[a|e] s1] eqn:E; reply_case E; destruct Hreply as (Hud & Hum & o & l & Hl);
    cbn -[error_handler].
  - split; [exact Hud|split; [exact Hum|eauto]].
  - destruct (error_handler_run (mkUpdate user chat (UCommand "cancel")) e s1)
      as (Hud' & Hum' & l' & Hl').
    split; [congruence|split; [congruence|]].
    rewrite Hl', Hl. exists o, (l ++ l')%list. rewrite <- app_assoc. reflexivity.
Qed.

Lemma cancel_idle_run (DEPARTMENTS PRIORITIES : gmap string string)
    (user : TgUser) (chat : Z) (s : St) :
  let r := process_update DEPARTMENTS PRIORITIES None (mkUpdate user chat (UCommand "cancel")) s in
  fst r = None /\ ud (snd r) = ud s /\ um (snd r) = um s /\
  exists o l, trace (snd r) = (trace s ++ EvSend chat Messages.cancel_not_available None o :: l)%list.
Proof.
  cbv zeta. unfold process_update. rewrite route_cancel_idle.
  unfold cancel_not_available. cbn -[_send_message_with_retry error_handler]. rewrite !bind_run.
  destruct (_send_message_with_retry chat Messages.cancel_not_available None s)
    as [[a|e] s1] eqn:E; reply_case E; destruct Hreply as (Hud & Hum & o & l & Hl);
    cbn -[error_handler].
  - split; [reflexivity|split; [exact Hud|split; [exact Hum|eauto]]].
  - destruct (error_handler_run (mkUpdate user chat (UCommand "cancel")) e s1) as (Hud' & Hum' & l' & Hl').
    split; [reflexivity|split; [congruence|split; [congruence|]]].
    rewrite Hl', Hl. exists o, (l ++ l')%list. rewrite <- app_assoc. reflexivity.
Qed.

(** /cancel checks access before cancelling: a user whose permission was
    revoked while their conversation was at ENTERING_QUANTITY gets
    access-denied; the conversation ends but the draft and the in-progress
    marker are not discarded. *)
Lemma revoked_cancel_keeps_draft :
  is_allowed (um (snd (revocation_run (UCommand "cancel")))) 42 = false /\
  fst (revocation_run (UCommand "cancel")) = None /\
  ud (snd (revocation_run (UCommand "cancel"))) =
    mkUserData true (Some "it") (Some "Mouse") None None /\
  last (trace (snd (revocation_run (UCommand "cancel")))) =
    Some (EvSend 42 Messages.access_denied None OSent).
Proof. vm_compute. split; [reflexivity|split; [reflexivity|split; reflexivity]]. Qed.

(** C4 (defect): Ann cancels at ENTERING_QUANTITY and the cancellation
    report fails with a TelegramError. The draft is gone, but the
    conversation is still at ENTERING_QUANTITY: a following /order is
    answered "already in progress" and starts no draft, and a following
    text "10" is taken as the quantity of the emptied draft, moving the
    conversation on to SELECTING_PRIORITY. *)
Lemma C4_failed_cancel_report_keeps_conversation :
  fst (failed_cancel_run []) = Some ENTERING_QUANTITY /\
  ud (snd (failed_cancel_run [])) = empty_user_data /\
  fst (failed_cancel_run [UCommand "order"]) = Some ENTERING_QUANTITY /\
  ud (snd (failed_cancel_run [UCommand "order"])) = empty_user_data /\
  last (sends_to 42 (trace (snd (failed_cancel_run [UCommand "order"])))) =
    Some Messages.order_already_in_progress /\
  fst (failed_cancel_run [UCommand "order"; UText "10"]) = Some SELECTING_PRIORITY /\
  ud (snd (failed_cancel_run [UCommand "order"; UText "10"])) =
    mkUserData false None None (Some "10") None.
Proof.
  vm_compute. repeat split.
Qed.

(** C4: /cancel in a conversation, for an allowed user with an order in
    progress and in any state of the conversation. The user data is emptied
    before the cancellation is reported, whatever the transport does. When
    the report is delivered, the conversation ends, and a following /order
    sends the department prompt and starts a fresh draft holding only the
    in-progress marker. When the report raises, the conversation stays in
    its state: a following /order is answered "already in progress", the
    conversation keeps that state, and no draft is started. A user who is
    no longer allowed gets access-denied, and the user data and the
    registry are left as they were. Outside a conversation, /cancel reports
    "nothing to cancel" and changes neither the user data nor the
    registry. *)
Theorem C4_cancel_discards_draft (DEPARTMENTS PRIORITIES : gmap string string)
    (user : TgUser) (chat : Z) :
  (forall st s, is_allowed (um s) (user_id user) = true -> order_in_progress (ud s) = true ->
     let r := process_update DEPARTMENTS PRIORITIES (Some st)
                (mkUpdate user chat (UCommand "cancel")) s in
     let report := _send_message_with_retry chat Messages.cancel_success None
                     (set_ud empty_user_data s) in
     let r2 := process_update DEPARTMENTS PRIORITIES (fst r)
                 (mkUpdate user chat (UCommand "order")) (snd r) in
     ud (snd r) = empty_user_data /\ um (snd r) = um s /\
     (exists o l, trace (snd r) = (trace s ++ EvSend chat Messages.cancel_success None o :: l)%list) /\
     ((exists v, fst report = Ok v) ->
        fst r = None /\ ud (snd r2) = mkUserData true None None None None /\
        exists o l, trace (snd r2) =
          (trace (snd r) ++ EvSend chat Messages.order_select_department
                              (Some (department_keyboard DEPARTMENTS)) o :: l)%list) /\
     ((exists e, fst report = Err e) ->
        fst r = Some st /\ fst r2 = Some st /\ ud (snd r2) = empty_user_data /\
        exists o l, trace (snd r2) =
          (trace (snd r) ++ EvSend chat Messages.order_already_in_progress None o :: l)%list)) /\
  (forall st s, is_allowed (um s) (user_id user) = false ->
     let r := process_update DEPARTMENTS PRIORITIES (Some st)
                (mkUpdate user chat (UCommand "cancel")) s in
     ud (snd r) = ud s /\ um (snd r) = um s /\
     exists o l, trace (snd r) = (trace s ++ EvSend chat Messages.access_denied None o :: l)%list) /\
  (forall s,
     let r := process_update DEPARTMENTS PRIORITIES None (mkUpdate user chat (UCommand "cancel")) s in
     fst r = None /\ ud (snd r) = ud s /\ um (snd r) = um s /\
     exists o l, trace (snd r) = (trace s ++ EvSend chat Messages.cancel_not_available None o :: l)%list).
Proof.
  split; [|split].
  - intros st s Hallowed Hprog. cbv zeta.
    pose proof (cancel_allowed_run DEPARTMENTS PRIORITIES user chat st s Hallowed Hprog) as Hr.
    destruct (reply_run chat Messages.cancel_success (set_ud empty_user_data s))
      as (Hud & Hum & o & l & Hl).
    destruct (_send_message_with_retry chat Messages.cancel_success None (set_ud empty_user_data s))
      as [[a|e] s1] eqn:E; cbn [snd] in Hud, Hum, Hl; rewrite Hr; cbn [fst snd];
      rewrite ud_set_ud in Hud; rewrite um_set_ud in Hum; rewrite trace_set_ud in Hl.
    + split; [exact Hud|split; [exact Hum|split; [eauto|split]]].
      * intros _. split; [reflexivity|].
        destruct (order_fresh_run DEPARTMENTS PRIORITIES user chat s1)
          as (Hud2 & Htr2); [rewrite Hum; exact Hallowed|rewrite Hud; reflexivity|].
        split; [rewrite Hud2, Hud; reflexivity|exact Htr2].
      * intros (e & He). discriminate He.
    + destruct (error_handler_run (mkUpdate user chat (UCommand "cancel")) e s1)
        as (Hud' & Hum' & l' & Hl').
      split; [congruence|split; [congruence|split; [|split]]].
      * rewrite Hl', Hl. exists o, (l ++ l')%list. rewrite <- app_assoc. reflexivity.
      * intros (v & Hv). discriminate Hv.
      * intros _. split; [reflexivity|].
        destruct (order_active_run DEPARTMENTS PRIORITIES st user chat
                    (snd (error_handler (mkUpdate user chat (UCommand "cancel")) e s1)))
          as (Hst & Hud2 & Htr2).
        split; [exact Hst|split; [rewrite Hud2; congruence|exact Htr2]].
  - intros st s Hdenied. apply cancel_denied_run. exact Hdenied.
  - intros s. apply cancel_idle_run.
Qed.

(** ** C3: selecting a department *)

Lemma ud_answer_query s : ud (snd (answer_query s)) = ud s.
Proof. apply (keeps_answer_query ud ud_set_sched ud_add_event). Qed.

(** A department selection runs the same whatever the catalogs are. *)
Lemma department_catalog_unused D1 P1 D2 P2 user chat data s :
  process_update D1 P1 (Some SELECTING_DEPARTMENT) (mkUpdate user chat (UCallback data)) s =
  process_update D2 P2 (Some SELECTING_DEPARTMENT) (mkUpdate user chat (UCallback data)) s.
Proof.
  unfold process_update. rewrite !route_department.
  destruct (Py.startswith data "dept_"); reflexivity.
Qed.

(** C3 (as stated, refuted): [department_selected] records whatever follows
    "dept_" in the payload. "dept_printers" is accepted, advances to
    ENTERING_PRODUCT and records "printers", which is no department of the
    catalog. *)
Lemma C3_unknown_department_recorded :
  sample_departments !! "printers" = None /\
  fst (process_update sample_departments sample_priorities (Some SELECTING_DEPARTMENT)
         (ann_says (UCallback "dept_printers"))
         (sample_state sample_um (with_order_in_progress true empty_user_data) [])) =
    Some ENTERING_PRODUCT /\
  department (ud (snd (process_update sample_departments sample_priorities
         (Some SELECTING_DEPARTMENT) (ann_says (UCallback "dept_printers"))
         (sample_state sample_um (with_order_in_progress true empty_user_data) [])))) =
    Some "printers".
Proof. vm_compute. split; [reflexivity|split; reflexivity]. Qed.

(** C3 (amended): at SELECTING_DEPARTMENT, a selection whose payload does
    not start with "dept_" is not handled at all; one that does is accepted
    whatever the rest of the payload is: the outcome does not depend on the
    department catalog, the draft's department becomes the payload with
    every "dept_" removed (or stays as it was when answering the query
    fails), and with a reliable transport the machine advances to
    ENTERING_PRODUCT with only the department changed. *)
Theorem C3_department_taken_from_payload (DEPARTMENTS PRIORITIES : gmap string string)
    (user : TgUser) (chat : Z) (data : string) (s : St) :
  let r := process_update DEPARTMENTS PRIORITIES (Some SELECTING_DEPARTMENT)
             (mkUpdate user chat (UCallback data)) s in
  (forall D' P', r = process_update D' P' (Some SELECTING_DEPARTMENT)
                       (mkUpdate user chat (UCallback data)) s) /\
  (Py.startswith data "dept_" = false -> r = (Some SELECTING_DEPARTMENT, s)) /\
  (Py.startswith data "dept_" = true ->
     department (ud (snd r)) = department (ud s) \/
     department (ud (snd r)) = Some (Py.replace_empty "dept_" data)) /\
  (Py.startswith data "dept_" = true -> sched s = [] ->
     fst r = Some ENTERING_PRODUCT /\
     ud (snd r) = with_department (Py.replace_empty "dept_" data) (ud s)).
Proof.
  cbv zeta. split; [intros D' P'; apply department_catalog_unused|].
  unfold process_update. rewrite !route_department.
  destruct (Py.startswith data "dept_") eqn:Hpre;
    [|split; [reflexivity|split; intros H; discriminate H]].
  split; [intros H; discriminate H|].
  unfold department_selected, set_user_data, modify. rewrite !bind_run.
  pose proof (ud_answer_query s) as Hq.
  split.
  - intros _. destruct (answer_query s) as [[[]|e] s1] eqn:Ea; cbn [snd] in Hq.
    + cbn -[_send_message_with_retry error_handler]. rewrite !bind_run.
      set (s2 := set_ud _ s1).
      destruct (_send_message_with_retry chat Messages.order_enter_product None s2)
        as [[a|e] s3] eqn:E; reply_case E; destruct Hreply as (Hud & _ & _);
        cbn -[error_handler].
      * right. rewrite Hud. reflexivity.
      * right. rewrite ud_error_handler, Hud. reflexivity.
    + left. cbn -[error_handler]. rewrite ud_error_handler. rewrite Hq. reflexivity.
  - intros _ Hs. rewrite (answer_query_reliable s Hs). cbn -[_send_message_with_retry].
    rewrite bind_run. cbn -[_send_message_with_retry].
    rewrite bind_run, send_with_retry_reliable by exact Hs. cbn. split; reflexivity.
Qed.

(** ** C1 and C10: confirming or rejecting the order *)

(** With a reliable transport the whole conversation ends the way the
    handlers intend: terminal state, empty user data, one copy of the order
    for the administrator. *)
Example order_run_reliable :
  fst (order_run "confirm_yes" []) = END /\
  ud (snd (order_run "confirm_yes" [])) = empty_user_data /\
  exists msg,
    order_message sample_departments sample_priorities ann
      (mkUserData true (Some "it") (Some "Mouse") (Some "10") (Some "high")) sample_clock = Ok msg /\
    sends_to 1 (trace (snd (order_run "confirm_yes" []))) = [msg].
Proof. vm_compute. split; [reflexivity|split; [reflexivity|eexists; split; reflexivity]]. Qed.

(** C1 (defect): [confirm_order] clears the user data only after the
    success report to the submitter, which can raise. When that report fails
    with a TelegramError after the order was relayed, the conversation stays
    at CONFIRMING_ORDER with the whole draft, and pressing "confirm" again
    relays the same order to the administrator a second time. *)
Theorem C1_failed_report_keeps_draft :
  let r := order_run "confirm_yes" (repeat OSent 9 ++ [OFailed]) in
  let r2 := process_update sample_departments sample_priorities (fst r)
              (ann_says (UCallback "confirm_yes")) (snd r) in
  exists msg,
    order_message sample_departments sample_priorities ann (ud (snd r)) sample_clock = Ok msg /\
    fst r = Some CONFIRMING_ORDER /\
    ud (snd r) = mkUserData true (Some "it") (Some "Mouse") (Some "10") (Some "high") /\
    sends_to 1 (trace (snd r)) = [msg] /\
    fst r2 = END /\ ud (snd r2) = empty_user_data /\
    sends_to 1 (trace (snd r2)) = [msg; msg].
Proof.
  vm_compute. eexists.
  split; [reflexivity|]. split; [reflexivity|]. split; [reflexivity|].
  split; [reflexivity|]. split; [reflexivity|]. split; reflexivity.
Qed.

(** A rejection reaches the end with empty user data when the transport
    delivers: any "confirm_" payload other than "confirm_yes" answers the
    query, reports the cancellation, and relays nothing. *)
Lemma confirm_reject_reliable (DEPARTMENTS PRIORITIES : gmap string string)
    (user : TgUser) (chat : Z) (data : string) (s : St) :
  Py.startswith data "confirm_" = true -> data <> "confirm_yes" -> sched s = [] ->
  process_update DEPARTMENTS PRIORITIES (Some CONFIRMING_ORDER) (mkUpdate user chat (UCallback data)) s
  = (END, set_ud empty_user_data
            (add_event (EvSend chat Messages.order_cancelled None OSent)
               (add_event (EvAnswer OSent) s))).
Proof.
  intros Hpre Hne Hs. unfold process_update. rewrite route_confirm, Hpre.
  unfold confirm_order, set_user_data, modify. rewrite !bind_run.
  rewrite (answer_query_reliable s Hs). cbn -[_send_message_with_retry].
  apply String.eqb_neq in Hne. rewrite Hne. rewrite !bind_run.
  rewrite send_with_retry_reliable by exact Hs. reflexivity.
Qed.

(** C10 (defect, the same one as C1): a rejection such as "confirm_maybe"
    is handled as a rejection, but the user data is cleared only after the
    cancellation report. When that report fails with a TelegramError, the
    conversation stays at CONFIRMING_ORDER with the whole draft; nothing is
    relayed to the administrator. *)
Theorem C10_failed_reject_report_keeps_draft :
  let r := order_run "confirm_maybe" (repeat OSent 8 ++ [OFailed]) in
  fst r = Some CONFIRMING_ORDER /\
  ud (snd r) = mkUserData true (Some "it") (Some "Mouse") (Some "10") (Some "high") /\
  sends_to 1 (trace (snd r)) = [] /\
  last (sends_to 42 (trace (snd r))) = Some Messages.error_occurred.
Proof. vm_compute. split; [reflexivity|split; [reflexivity|split; reflexivity]]. Qed.

(* ================================================================== *)
(** * Further properties of the code *)

(** ** Strings *)

Lemma app_String c a b : (String c a ++ b) = String c (a ++ b).
Proof. reflexivity. Qed.

Lemma list_ascii_app a b :
  list_ascii_of_string (a ++ b) = (list_ascii_of_string a ++ list_ascii_of_string b)%list.
Proof. induction a as [|c a IH]; simpl; [reflexivity|rewrite IH; reflexivity]. Qed.

(** ** [_parse_user_id] *)

Lemma split_first_app_sep sep s c :
  Py.split_first sep (s ++ sep :: c)%list = Py.split_first sep s.
Proof.
  induction s as [|c0 r IH]; cbn.
  - rewrite Z.eqb_refl. reflexivity.
  - destruct (Z.eqb c0 sep); [reflexivity|rewrite IH; reflexivity].
Qed.

Lemma split_first_without_sep sep s :
  Forall (fun c => Z.eqb c sep = false) s -> Py.split_first sep s = s.
Proof.
  induction 1 as [|c r Hc _ IH]; cbn; [reflexivity|]. rewrite Hc, IH. reflexivity.
Qed.

Lemma lstrip_spaces sp s : all_space sp -> Py.lstrip_text (sp ++ s)%list = Py.lstrip_text s.
Proof. induction 1 as [|c sp Hc _ IH]; cbn [app Py.lstrip_text]; [reflexivity|]. rewrite Hc. exact IH. Qed.

Lemma lstrip_nospace w :
  Forall (fun c => Py.is_space c = false) w -> Py.lstrip_text w = w.
Proof. destruct 1 as [|c r Hc _]; cbn [Py.lstrip_text]; [reflexivity|]. rewrite Hc. reflexivity. Qed.

Lemma strip_around sp1 w sp2 :
  all_space sp1 -> all_space sp2 -> Forall (fun c => Py.is_space c = false) w ->
  Py.strip_text (sp1 ++ w ++ sp2)%list = w.
Proof.
  intros H1 H2 Hw. unfold Py.strip_text. rewrite lstrip_spaces by exact H1.
  destruct w as [|c r].
  - rewrite app_nil_l, <- (app_nil_r sp2), lstrip_spaces by exact H2. reflexivity.
  - assert (Hc : Py.is_space c = false) by (inversion Hw; assumption).
    cbn [app Py.lstrip_text]. rewrite Hc.
    change (c :: r ++ sp2)%list with ((c :: r) ++ sp2)%list.
    rewrite rev_app_distr, lstrip_spaces by (apply Forall_rev; exact H2).
    rewrite lstrip_nospace by (apply Forall_rev; exact Hw). apply rev_involutive.
Qed.

(** The whitespace characters are neither digits nor "#" (35) nor a sign. *)
Lemma space_facts c :
  Py.is_space c = true ->
  Py.decimal_value c = None /\ Z.eqb c 35 = false.
Proof.
  unfold Py.is_space. intros H. apply existsb_exists in H as (x & Hin & Hx).
  apply Z.eqb_eq in Hx. subst x. cbn in Hin.
  repeat (destruct Hin as [<-|Hin]; [split; reflexivity|]). contradiction.
Qed.

Lemma digit_facts c d :
  Py.decimal_value c = Some d ->
  Py.is_space c = false /\ Z.eqb c 35 = false /\ Z.eqb c 45 = false /\
  Z.eqb c 43 = false /\ Z.eqb c 95 = false.
Proof.
  intros H. split.
  - destruct (Py.is_space c) eqn:E; [|reflexivity].
    destruct (space_facts c E) as [E' _]. congruence.
  - repeat split; apply Z.eqb_neq; intros ->; vm_compute in H; discriminate H.
Qed.

Lemma digits_after_dec acc n ds :
  decimal_digits ds ->
  Py.digits_after acc n ds =
    Some (fold_left (fun a c => a * 10 + default 0 (Py.decimal_value c))%Z ds acc,
          (n + length ds)%nat).
Proof.
  revert acc n. induction ds as [|c ds IH]; intros acc n H.
  - cbn. rewrite Nat.add_0_r. reflexivity.
  - inversion H as [|? ? Hc Hr]; subst.
    destruct (Py.decimal_value c) as [d|] eqn:E; [|congruence].
    destruct (digit_facts c d E) as (_ & _ & _ & _ & H95).
    cbn [Py.digits_after]. rewrite H95, E. rewrite IH by exact Hr.
    cbn [fold_left length default]. rewrite E, Nat.add_succ_r. reflexivity.
Qed.

Lemma digits_dec ds :
  ds <> [] -> decimal_digits ds ->
  Py.digits ds =
    if Nat.leb (length ds) Py.max_str_digits then Some (dec_value ds) else None.
Proof.
  destruct ds as [|c r]; [congruence|]. intros _ H.
  inversion H as [|? ? Hc Hr]; subst.
  destruct (Py.decimal_value c) as [d|] eqn:E; [|congruence].
  unfold Py.digits. rewrite E, digits_after_dec by exact Hr.
  unfold dec_value. cbn [fold_left length default]. rewrite E. cbn [default].
  rewrite Z.mul_0_l, Z.add_0_l. reflexivity.
Qed.

Lemma int_of_dec ds :
  ds <> [] -> decimal_digits ds ->
  Py.int_of_text ds = Py.digits ds /\
  Py.int_of_text (43%Z :: ds) = Py.digits ds /\
  Py.int_of_text (45%Z :: ds) = option_map Z.opp (Py.digits ds).
Proof.
  destruct ds as [|c r]; [congruence|]. intros _ H.
  inversion H as [|? ? Hc Hr]; subst.
  destruct (Py.decimal_value c) as [d|] eqn:E; [|congruence].
  destruct (digit_facts c d E) as (_ & _ & H45 & H43 & _).
  split; [|split; reflexivity]. unfold Py.int_of_text. rewrite H45, H43. reflexivity.
Qed.

Lemma decimal_nospace ds :
  decimal_digits ds -> Forall (fun c => Py.is_space c = false) ds.
Proof.
  intros H. eapply Forall_impl; [exact H|]. intros c Hc.
  destruct (Py.decimal_value c) as [d|] eqn:E; [|congruence].
  exact (proj1 (digit_facts c d E)).
Qed.

Lemma decimal_nohash ds :
  decimal_digits ds -> Forall (fun c => Z.eqb c 35 = false) ds.
Proof.
  intros H. eapply Forall_impl; [exact H|]. intros c Hc.
  destruct (Py.decimal_value c) as [d|] eqn:E; [|congruence].
  exact (proj1 (proj2 (digit_facts c d E))).
Qed.

Lemma space_nohash sp :
  all_space sp -> Forall (fun c => Z.eqb c 35 = false) sp.
Proof.
  intros H. eapply Forall_impl; [exact H|]. intros c Hc. exact (proj2 (space_facts c Hc)).
Qed.

(** What [_parse_user_id] reads from a key of users.cfg: everything from
    the first "#" (code point 35) on is a comment and is ignored. In
    particular a key that starts with "#" (a commented-out line) gives no
    identifier. *)
Theorem parse_user_id_ignores_comment (s c : Py.text) :
  parse_user_id (s ++ 35%Z :: c)%list = parse_user_id s /\
  parse_user_id (35%Z :: c) = None.
Proof.
  unfold parse_user_id. rewrite split_first_app_sep. split; reflexivity.
Qed.

(** [_parse_user_id] reads a decimal numeral (digits of any script that
    [int()] accepts), with an optional "+" (43) or "-" (45) sign and
    surrounded by any whitespace, as the integer it denotes, as long as it
    has at most 4300 digits; a longer numeral makes [int()] raise and gives
    no identifier. *)
Theorem parse_user_id_reads_decimal (sp1 sp2 ds : Py.text) :
  all_space sp1 -> all_space sp2 -> ds <> [] -> decimal_digits ds ->
  parse_user_id (sp1 ++ ds ++ sp2)%list =
    (if Nat.leb (length ds) Py.max_str_digits then Some (dec_value ds) else None) /\
  parse_user_id (sp1 ++ 43%Z :: ds ++ sp2)%list =
    (if Nat.leb (length ds) Py.max_str_digits then Some (dec_value ds) else None) /\
  parse_user_id (sp1 ++ 45%Z :: ds ++ sp2)%list =
    (if Nat.leb (length ds) Py.max_str_digits then Some (- dec_value ds)%Z else None).
Proof.
  intros H1 H2 Hne Hds.
  destruct (int_of_dec ds Hne Hds) as (Hu & Hp & Hm).
  pose proof (digits_dec ds Hne Hds) as Hd.
  pose proof (decimal_nospace ds Hds) as Hsp.
  assert (Hh : forall sg, Z.eqb sg 35 = false ->
            Forall (fun c => Z.eqb c 35 = false) (sp1 ++ sg :: ds ++ sp2)%list).
  { intros sg Hsg. apply Forall_app. split; [apply space_nohash; exact H1|].
    constructor; [exact Hsg|]. apply Forall_app.
    split; [apply decimal_nohash; exact Hds|apply space_nohash; exact H2]. }
  unfold parse_user_id. split; [|split].
  - rewrite split_first_without_sep.
    + rewrite strip_around by assumption. destruct ds as [|c r]; [congruence|].
      rewrite Hu, Hd. reflexivity.
    + apply Forall_app. split; [apply space_nohash; exact H1|]. apply Forall_app.
      split; [apply decimal_nohash; exact Hds|apply space_nohash; exact H2].
  - rewrite split_first_without_sep by (apply Hh; reflexivity).
    change (43%Z :: ds ++ sp2)%list with ((43%Z :: ds) ++ sp2)%list.
    rewrite (strip_around sp1 (43%Z :: ds) sp2 H1 H2) by (constructor; [reflexivity|exact Hsp]).
    rewrite Hp, Hd. reflexivity.
  - rewrite split_first_without_sep by (apply Hh; reflexivity).
    change (45%Z :: ds ++ sp2)%list with ((45%Z :: ds) ++ sp2)%list.
    rewrite (strip_around sp1 (45%Z :: ds) sp2 H1 H2) by (constructor; [reflexivity|exact Hsp]).
    rewrite Hm, Hd. destruct (Nat.leb _ _); reflexivity.
Qed.

(** " ٤٢ " between a no-break space and an ideographic space: Arabic-Indic
    digits four and two. *)
Lemma parse_user_id_reads_decimal_witness :
  parse_user_id ([160%Z] ++ [1636%Z; 1634%Z] ++ [12288%Z])%list = Some 42%Z /\
  parse_user_id ([160%Z] ++ 43%Z :: [1636%Z; 1634%Z] ++ [12288%Z])%list = Some 42%Z /\
  parse_user_id ([160%Z] ++ 45%Z :: [1636%Z; 1634%Z] ++ [12288%Z])%list = Some (-42)%Z.
Proof.
  apply (parse_user_id_reads_decimal [160]%Z [12288]%Z [1636; 1634]%Z).
  - repeat constructor.
  - repeat constructor.
  - discriminate.
  - repeat constructor; vm_compute; discriminate.
Defined.

(** ** [_send_message_with_retry] *)

Lemma retry_loop_errors c t mk mr n s :
  match fst (retry_loop c t mk mr n s) with
  | Err e => e = ExnNetwork \/ e = ExnTelegram
  | Ok _ => True
  end.
Proof.
  revert s. induction n as [|n IH]; intros s; [exact I|].
  cbn [retry_loop]. rewrite catch_run, bind_run, send_message_run.
  unfold pop. destruct (sched s) as [|o rest]; [exact I|].
  destruct o as [|d| |]; cbn -[retry_loop Nat.ltb Nat.sub].
  - exact I.
  - rewrite bind_run. apply IH.
  - destruct (Nat.ltb _ _); [rewrite bind_run; apply IH|left; reflexivity].
  - right. reflexivity.
Qed.

Lemma retry_network_step c t mk mr n s rest :
  sched s = ONetwork :: rest -> Nat.ltb (mr - S n) (mr - 1) = true ->
  retry_loop c t mk mr (S n) s =
  retry_loop c t mk mr n
    (add_event (EvSleep (2 ^ Z.of_nat (mr - S n))%Z) (add_event (EvSend c t mk ONetwork) (set_sched rest s))).
Proof.
  intros Hs Hlt. cbn [retry_loop]. rewrite catch_run, bind_run, send_message_run.
  unfold pop. rewrite Hs. cbn -[retry_loop Nat.ltb Nat.sub]. rewrite Hlt, bind_run. reflexivity.
Qed.

Lemma retry_network_last c t mk mr n s rest :
  sched s = ONetwork :: rest -> Nat.ltb (mr - S n) (mr - 1) = false ->
  retry_loop c t mk mr (S n) s =
  (Err ExnNetwork, add_event (EvSend c t mk ONetwork) (set_sched rest s)).
Proof.
  intros Hs Hlt. cbn [retry_loop]. rewrite catch_run, bind_run, send_message_run.
  unfold pop. rewrite Hs. cbn -[retry_loop Nat.ltb Nat.sub]. rewrite Hlt. reflexivity.
Qed.

(** The retry policy of [_send_message_with_retry]: a rate limit is never
    raised to the caller, only a network error (on the last attempt) or
    another Telegram error is; any other Telegram error is raised at the
    first attempt, without a retry; and three network errors in a row are
    raised after back-off waits of 1 and 2 seconds. *)
Theorem send_with_retry_policy (c : Z) (t : string) (mk : option Keyboard) :
  (forall s, match fst (_send_message_with_retry c t mk s) with
             | Err e => e = ExnNetwork \/ e = ExnTelegram
             | Ok _ => True
             end) /\
  (forall s rest, sched s = OFailed :: rest ->
     _send_message_with_retry c t mk s =
       (Err ExnTelegram, add_event (EvSend c t mk OFailed) (set_sched rest s))) /\
  (forall s rest, sched s = ONetwork :: ONetwork :: ONetwork :: rest ->
     fst (_send_message_with_retry c t mk s) = Err ExnNetwork /\
     trace (snd (_send_message_with_retry c t mk s)) =
       (trace s ++ [EvSend c t mk ONetwork; EvSleep 1; EvSend c t mk ONetwork; EvSleep 2;
                    EvSend c t mk ONetwork])%list /\
     sched (snd (_send_message_with_retry c t mk s)) = rest).
Proof.
  split; [|split].
  - intros s. apply retry_loop_errors.
  - intros s rest Hs. unfold _send_message_with_retry, _send_message_with_retry_n.
    cbn [retry_loop]. rewrite catch_run, bind_run, send_message_run. unfold pop.
    rewrite Hs. reflexivity.
  - intros s rest Hs. unfold _send_message_with_retry, _send_message_with_retry_n.
    rewrite (retry_network_step _ _ _ _ _ s (ONetwork :: ONetwork :: rest)) by (exact Hs || reflexivity).
    rewrite (retry_network_step _ _ _ _ _ _ (ONetwork :: rest)) by (exact Hs || reflexivity).
    rewrite (retry_network_last _ _ _ _ _ _ rest) by (exact Hs || reflexivity).
    cbn [fst snd trace sched add_event set_sched]. rewrite <- !app_assoc.
    split; [reflexivity|split; reflexivity].
Qed.

(** ** [Bot.error_handler] *)

(** [error_handler] never raises. For a rate limit or a network error it
    does nothing at all; for any other error it makes exactly one attempt
    (no retry) to send the generic error message to the update's chat, and
    a failure of that attempt is swallowed. *)
Theorem error_handler_behaviour (u : Update) (e : Exn) (s : St) :
  fst (error_handler u e s) = Ok tt /\
  ((e = ExnNetwork \/ exists d, e = ExnRetryAfter d) -> snd (error_handler u e s) = s) /\
  (e <> ExnNetwork -> (forall d, e <> ExnRetryAfter d) ->
     snd (error_handler u e s) =
       add_event (EvSend (effective_chat u) Messages.error_occurred None (fst (pop s))) (snd (pop s))).
Proof.
  destruct e as [d| | |k|m|m]; cbn [error_handler].
  - split; [reflexivity|split; [intros _; reflexivity|]]. intros _ H. exfalso. exact (H d eq_refl).
  - split; [reflexivity|split; [intros _; reflexivity|]]. intros H. exfalso. exact (H eq_refl).
  - rewrite !catch_run, send_message_run.
    destruct (exn_of_outcome (fst (pop s))); cbn;
      (split; [reflexivity|split; [intros [H|[d H]]; discriminate H|intros _ _; reflexivity]]).
  - rewrite !catch_run, send_message_run.
    destruct (exn_of_outcome (fst (pop s))); cbn;
      (split; [reflexivity|split; [intros [H|[d H]]; discriminate H|intros _ _; reflexivity]]).
  - rewrite !catch_run, send_message_run.
    destruct (exn_of_outcome (fst (pop s))); cbn;
      (split; [reflexivity|split; [intros [H|[d H]]; discriminate H|intros _ _; reflexivity]]).
  - rewrite !catch_run, send_message_run.
    destruct (exn_of_outcome (fst (pop s))); cbn;
      (split; [reflexivity|split; [intros [H|[d H]]; discriminate H|intros _ _; reflexivity]]).
Qed.

(** ** Updates that no handler takes *)

(** Inputs out of step with the conversation are dropped without a reply
    and without any change: a text message while a button is expected, a
    button press while a text is expected, a button whose data lacks the
    prefix of the state (SELECTING_DEPARTMENT, SELECTING_PRIORITY or
    CONFIRMING_ORDER), a text message or a button press when no
    conversation is active, and any command other than /start, /help,
    /reload_users, /order and /cancel, in any state. *)
Theorem unhandled_updates_ignored (DEPARTMENTS PRIORITIES : gmap string string)
    (user : TgUser) (chat : Z) (s : St) :
  (forall st t, st <> ENTERING_PRODUCT -> st <> ENTERING_QUANTITY ->
     process_update DEPARTMENTS PRIORITIES (Some st) (mkUpdate user chat (UText t)) s = (Some st, s)) /\
  (forall st d, st = ENTERING_PRODUCT \/ st = ENTERING_QUANTITY ->
     process_update DEPARTMENTS PRIORITIES (Some st) (mkUpdate user chat (UCallback d)) s = (Some st, s)) /\
  (forall d, Py.startswith d "dept_" = false ->
     process_update DEPARTMENTS PRIORITIES (Some SELECTING_DEPARTMENT)
       (mkUpdate user chat (UCallback d)) s = (Some SELECTING_DEPARTMENT, s)) /\
  (forall d, Py.startswith d "priority_" = false ->
     process_update DEPARTMENTS PRIORITIES (Some SELECTING_PRIORITY)
       (mkUpdate user chat (UCallback d)) s = (Some SELECTING_PRIORITY, s)) /\
  (forall d, Py.startswith d "confirm_" = false ->
     process_update DEPARTMENTS PRIORITIES (Some CONFIRMING_ORDER)
       (mkUpdate user chat (UCallback d)) s = (Some CONFIRMING_ORDER, s)) /\
  (forall t, process_update DEPARTMENTS PRIORITIES None (mkUpdate user chat (UText t)) s = (None, s)) /\
  (forall d, process_update DEPARTMENTS PRIORITIES None (mkUpdate user chat (UCallback d)) s = (None, s)) /\
  (forall conv n, n <> "start" -> n <> "help" -> n <> "reload_users" -> n <> "order" -> n <> "cancel" ->
     process_update DEPARTMENTS PRIORITIES conv (mkUpdate user chat (UCommand n)) s = (conv, s)).
Proof.
  split; [|split; [|split; [|split; [|split; [|split; [|split]]]]]].
  - intros [] t H1 H2; try congruence; reflexivity.
  - intros st d [-> | ->]; reflexivity.
  - intros d H. unfold process_update. rewrite route_department, H. reflexivity.
  - intros d H. unfold process_update, route. cbn. rewrite H. reflexivity.
  - intros d H. unfold process_update, route. cbn. rewrite H. reflexivity.
  - intros t. unfold process_update. rewrite route_text_idle. reflexivity.
  - intros d. unfold process_update. rewrite route_callback_idle. reflexivity.
  - intros conv n H1 H2 H3 H4 H5. unfold process_update, route, is_command. cbn [kind].
    apply String.eqb_neq in H1, H2, H3, H4, H5. rewrite H1, H2, H3.
    unfold conversation_route, is_command. cbn [kind]. rewrite H4, H5.
    destruct conv as [st|]; [|reflexivity].
    unfold state_route. cbn [kind]. destruct st; reflexivity.
Qed.

(** ** /start and /help *)

Lemma plain_reply_process u txt s :
  let p := match (_send_message_with_retry (effective_chat u) txt None;; mret tt) s with
           | (Ok _, s') => s'
           | (Err e, s') => snd (error_handler u e s')
           end in
  ud p = ud s /\ um p = um s /\
  exists o l, trace p = (trace s ++ EvSend (effective_chat u) txt None o :: l)%list.
Proof.
  cbv zeta. rewrite bind_run.
  destruct (_send_message_with_retry (effective_chat u) txt None s) as [[a|e] s1] eqn:E;
    reply_case E; destruct Hreply as (Hud & Hum & o & l & Hl); cbn.
  - split; [exact Hud|split; [exact Hum|eauto]].
  - destruct (error_handler_run u e s1) as (Hud' & Hum' & l' & Hl').
    split; [congruence|split; [congruence|]].
    rewrite Hl', Hl. exists o, (l ++ l')%list. rewrite <- app_assoc. reflexivity.
Qed.

Lemma gets_run {A} (f : St -> A) s : gets f s = (Ok (f s), s).
Proof. reflexivity. Qed.

Lemma route_start D P conv u : kind u = UCommand "start" -> route D P conv u = RPlain (start u).
Proof. intros H. unfold route, is_command. rewrite H. reflexivity. Qed.

Lemma route_help D P conv u : kind u = UCommand "help" -> route D P conv u = RPlain (help_command u).
Proof. intros H. unfold route, is_command. rewrite H. reflexivity. Qed.

(** /start and /help work in every state of the conversation and leave it,
    the user data and the registry unchanged; the first message sent
    answers the chat with the greeting (or the command list) for an
    allowed user and with access-denied otherwise. *)
Theorem start_help_keep_state (DEPARTMENTS PRIORITIES : gmap string string) :
  (forall conv user chat s,
     let r := process_update DEPARTMENTS PRIORITIES conv (mkUpdate user chat (UCommand "start")) s in
     fst r = conv /\ ud (snd r) = ud s /\ um (snd r) = um s /\
     exists o l, trace (snd r) =
       (trace s ++ EvSend chat (if is_allowed (um s) (user_id user) then Messages.start_allowed
                                else Messages.access_denied) None o :: l)%list) /\
  (forall conv user chat s,
     let r := process_update DEPARTMENTS PRIORITIES conv (mkUpdate user chat (UCommand "help")) s in
     fst r = conv /\ ud (snd r) = ud s /\ um (snd r) = um s /\
     exists o l, trace (snd r) =
       (trace s ++ EvSend chat (if is_allowed (um s) (user_id user) then Messages.help_commands
                                else Messages.access_denied) None o :: l)%list).
Proof.
  split; intros conv user chat s; cbv zeta; unfold process_update;
    [rewrite route_start by reflexivity; unfold start
    |rewrite route_help by reflexivity; unfold help_command];
    rewrite bind_run, gets_run; cbv beta iota; cbn [negb effective_user effective_chat];
    destruct (is_allowed (um s) (user_id user)); cbn [negb];
    match goal with
    | |- context [(_send_message_with_retry ?c ?t None ;; mret tt) s] =>
        match goal with
        | |- context [error_handler ?u] => pose proof (plain_reply_process u t s) as Hp
        end
    end; cbn zeta in Hp; cbn [effective_chat] in Hp;
    destruct ((_send_message_with_retry chat _ None;; mret tt) s) as [[a|e] s1];
    cbn [fst]; (split; [reflexivity|exact Hp]).
Qed.

(** ** Who can change the registry *)

Lemma keeps_gets {X A} (f : St -> X) (g : St -> A) : keeps f (gets g).
Proof. intros s. reflexivity. Qed.

Lemma keeps_liftR {X A} (f : St -> X) (r : Result A) : keeps f (liftR r).
Proof. intros s. destruct r; reflexivity. Qed.

Lemma keeps_um_set_user_data g : keeps um (set_user_data g).
Proof. intros s. reflexivity. Qed.

Ltac keeps_um_tac :=
  repeat (first
    [ apply keeps_um_set_user_data
    | apply (keeps_send_with_retry um um_set_sched um_add_event)
    | apply (keeps_send_message um um_set_sched um_add_event)
    | apply (keeps_answer_query um um_set_sched um_add_event)
    | apply (keeps_send_to_each um um_set_sched um_add_event)
    | apply keeps_gets | apply keeps_liftR | apply keeps_ret | apply keeps_raise
    | apply keeps_bind | apply keeps_catch
    | match goal with |- keeps _ (if ?b then _ else _) => destruct b end
    | match goal with |- forall _, _ => intro end ]).

Create HintDb keeps_um.

Lemma keeps_um_start u : keeps um (start u).
Proof. unfold start. keeps_um_tac. Qed.
Lemma keeps_um_help u : keeps um (help_command u).
Proof. unfold help_command. keeps_um_tac. Qed.
Lemma keeps_um_reply_text u t : keeps um (reply_text u t).
Proof. unfold reply_text. keeps_um_tac. Qed.
Lemma keeps_um_order_command D u : keeps um (order_command D u).
Proof. unfold order_command. keeps_um_tac. Qed.
Lemma keeps_um_department_selected u d : keeps um (department_selected u d).
Proof. unfold department_selected. keeps_um_tac. Qed.
Lemma keeps_um_product_entered u t : keeps um (product_entered u t).
Proof. unfold product_entered. keeps_um_tac. Qed.
Lemma keeps_um_quantity_entered P u t : keeps um (quantity_entered P u t).
Proof. unfold quantity_entered. keeps_um_tac. Qed.
Lemma keeps_um_priority_selected D P u d : keeps um (priority_selected D P u d).
Proof. unfold priority_selected. keeps_um_tac. Qed.
Lemma keeps_um_confirm_order D P u d : keeps um (confirm_order D P u d).
Proof. unfold confirm_order, _send_order_to_admins. keeps_um_tac. Qed.
Lemma keeps_um_cancel_command u : keeps um (cancel_command u).
Proof. unfold cancel_command. keeps_um_tac. Qed.
Lemma keeps_um_order_in_progress u : keeps um (order_in_progress_handler u).
Proof. unfold order_in_progress_handler. keeps_um_tac. Qed.
Lemma keeps_um_cancel_not_available u : keeps um (cancel_not_available u).
Proof. unfold cancel_not_available. keeps_um_tac. Qed.

#[local] Hint Resolve keeps_um_start keeps_um_help keeps_um_order_command
  keeps_um_department_selected keeps_um_product_entered keeps_um_quantity_entered
  keeps_um_priority_selected keeps_um_confirm_order keeps_um_cancel_command
  keeps_um_order_in_progress keeps_um_cancel_not_available : keeps_um.

Lemma state_route_keeps_um D P st u :
  match state_route D P st u with Some h => keeps um h | None => True end.
Proof.
  unfold state_route. destruct st, (kind u) as [n|t|d]; cbv beta iota; try exact I;
    try (destruct (Py.startswith d _); cbv beta iota; [|exact I]); auto with keeps_um.
Qed.

Lemma conversation_route_keeps_um D P conv u :
  match conversation_route D P conv u with Some h => keeps um h | None => True end.
Proof.
  unfold conversation_route. destruct conv as [st|].
  - pose proof (state_route_keeps_um D P st u) as H.
    destruct (state_route D P st u); [exact H|].
    destruct (is_command "cancel" u); [auto with keeps_um|exact I].
  - destruct (is_command "order" u); [auto with keeps_um|exact I].
Qed.

Lemma route_keeps_um D P conv u :
  is_command "reload_users" u = false ->
  match route D P conv u with RNone => True | RPlain h => keeps um h | RConv h => keeps um h end.
Proof.
  intros Hr. unfold route. rewrite Hr.
  destruct (is_command "start" u); [auto with keeps_um|].
  destruct (is_command "help" u); [auto with keeps_um|].
  pose proof (conversation_route_keeps_um D P conv u) as H.
  destruct (conversation_route D P conv u); [exact H|].
  destruct (is_command "order" u); [auto with keeps_um|].
  destruct (is_command "cancel" u); [auto with keeps_um|exact I].
Qed.

Lemma route_reload D P conv u :
  is_command "reload_users" u = true -> route D P conv u = RPlain (bot_reload_users u).
Proof.
  unfold route, is_command. destruct (kind u) as [n|t|d]; try discriminate.
  intros H. apply String.eqb_eq in H. subst n. reflexivity.
Qed.

(** The registry of administrators and allowed users changes only through
    /reload_users sent by an administrator, and then becomes what
    [_load_users] makes of the current users.cfg (unchanged when the load
    fails), whatever the transport does with the replies. Every other
    update, in every state of the conversation, leaves it as it was. *)
Theorem registry_changes_only_by_reload (DEPARTMENTS PRIORITIES : gmap string string)
    (conv : option OrderState) (u : Update) (s : St) :
  um (snd (process_update DEPARTMENTS PRIORITIES conv u s)) =
    if is_command "reload_users" u && is_admin (um s) (user_id (effective_user u))
    then snd (_load_users (users_cfg s) (um s)) else um s.
Proof.
  pose proof (fun e s0 => keeps_error_handler um um_set_sched um_add_event u e s0) as Heh.
  pose proof (fun t s0 => keeps_um_reply_text u t s0) as Hrep.
  destruct (is_command "reload_users" u) eqn:Hr; cbn [andb].
  - unfold process_update. rewrite route_reload by exact Hr.
    unfold bot_reload_users. rewrite bind_run, gets_run. cbv beta iota.
    destruct (is_admin (um s) (user_id (effective_user u))); cbn [negb].
    + rewrite catch_run, bind_run. unfold um_reload_users.
      destruct (reload_users (users_cfg s) (um s)) as [r um'] eqn:E.
      assert (Hl : snd (_load_users (users_cfg s) (um s)) = um') by (unfold reload_users in E; rewrite E; reflexivity).
      rewrite Hl. destruct r as [[]|e].
      * specialize (Hrep Messages.reload_success (set_um um' s)).
        change (um (set_um um' s)) with um' in Hrep.
        destruct (reply_text u Messages.reload_success (set_um um' s)) as [[[]|e] s2] eqn:E2;
          cbn [snd] in Hrep.
        -- exact Hrep.
        -- pose proof (keeps_um_reply_text u Messages.reload_error s2) as Hrep2.
           destruct (reply_text u Messages.reload_error s2) as [[[]|e'] s3];
             cbn [snd] in Hrep2 |- *; [congruence|rewrite Heh; congruence].
      * specialize (Hrep Messages.reload_error (set_um um' s)).
        change (um (set_um um' s)) with um' in Hrep.
        destruct (reply_text u Messages.reload_error (set_um um' s)) as [[[]|e'] s3];
          cbn [snd] in Hrep |- *; [exact Hrep|rewrite Heh; exact Hrep].
    + specialize (Hrep Messages.reload_not_admin s).
      destruct (reply_text u Messages.reload_not_admin s) as [[[]|e'] s3];
        cbn [snd] in Hrep |- *; [exact Hrep|rewrite Heh; exact Hrep].
  - pose proof (route_keeps_um DEPARTMENTS PRIORITIES conv u Hr) as H.
    unfold process_update. destruct (route DEPARTMENTS PRIORITIES conv u) as [|h|h]; [reflexivity| |];
      specialize (H s); destruct (h s) as [[a|e] s1]; cbn [snd] in H |- *;
      [exact H|rewrite Heh; exact H|exact H|rewrite Heh; exact H].
Qed.

(** ** The replies of /reload_users *)

(** The replies of /reload_users are single [reply_text] calls, without
    the retries of [_send_message_with_retry], and the success reply sits
    inside the [try] that guards the reload: when that reply fails (even
    with a transient network error), the administrator is sent the
    reload-error reply, although users.cfg was loaded and the registry
    replaced. *)
Theorem reload_reply_failure_reports_error (DEPARTMENTS PRIORITIES : gmap string string)
    (conv : option OrderState) (user : TgUser) (chat : Z) (s : St) (o : Outcome) :
  is_admin (um s) (user_id user) = true ->
  fst (_load_users (users_cfg s) (um s)) = Ok tt ->
  sched s = [o] -> exn_of_outcome o <> None ->
  process_update DEPARTMENTS PRIORITIES conv (mkUpdate user chat (UCommand "reload_users")) s =
  (conv, add_event (EvSend chat Messages.reload_error None OSent)
           (add_event (EvSend chat Messages.reload_success None o)
              (set_sched [] (set_um (snd (_load_users (users_cfg s) (um s))) s)))).
Proof.
  intros Hadm Hok Hs Ho. unfold process_update. rewrite route_reload by reflexivity.
  unfold bot_reload_users. rewrite bind_run, gets_run. cbv beta iota. cbn [effective_user].
  rewrite Hadm. cbn [negb]. rewrite catch_run, bind_run. unfold um_reload_users, reload_users.
  destruct (_load_users (users_cfg s) (um s)) as [r um'] eqn:E. cbn [fst] in Hok. subst r.
  cbv beta iota. unfold reply_text. rewrite send_message_run. unfold pop.
  cbn [sched set_um]. rewrite Hs. cbn [fst snd].
  destruct (exn_of_outcome o) as [e|] eqn:Eo; [|contradiction].
  rewrite send_message_run. reflexivity.
Qed.

Lemma reload_reply_failure_reports_error_witness :
  process_update sample_departments sample_priorities None (ann_says (UCommand "reload_users"))
    (mkSt (mkUserManager {[42%Z]} {[42%Z]}) cfg_admin7 empty_user_data [ONetwork] [] sample_clock) =
  (None, add_event (EvSend 42 Messages.reload_error None OSent)
           (add_event (EvSend 42 Messages.reload_success None ONetwork)
              (set_sched [] (set_um (snd (_load_users cfg_admin7 (mkUserManager {[42%Z]} {[42%Z]})))
                 (mkSt (mkUserManager {[42%Z]} {[42%Z]}) cfg_admin7 empty_user_data [ONetwork] [] sample_clock))))).
Proof.
  apply (reload_reply_failure_reports_error sample_departments sample_priorities None ann 42
           (mkSt (mkUserManager {[42%Z]} {[42%Z]}) cfg_admin7 empty_user_data [ONetwork] [] sample_clock)
           ONetwork).
  - vm_compute. reflexivity.
  - vm_compute. reflexivity.
  - reflexivity.
  - discriminate.
Defined.

(** ** Keyboard payloads and the handlers that read them back *)

Lemma prefix_app_inv p t : String.prefix p t = true -> exists r, t = (p ++ r).
Proof.
  revert t. induction p as [|a p IH]; intros t H; [exists t; reflexivity|].
  destruct t as [|b t]; [discriminate H|]. simpl in H.
  destruct (ascii_dec a b) as [<-|]; [|discriminate H].
  destruct (IH t H) as [r ->]. exists r. reflexivity.
Qed.

Lemma prefix_self_app p r : String.prefix p (p ++ r) = true.
Proof.
  induction p as [|a p IH]; [destruct r; reflexivity|].
  rewrite app_String. simpl. destruct (ascii_dec a a); [exact IH|congruence].
Qed.

Lemma length_str_app p r : String.length (p ++ r) = String.length p + String.length r.
Proof. induction p as [|a p IH]; [reflexivity|]. rewrite app_String. simpl. rewrite IH. reflexivity. Qed.

Lemma substring_0_long m r : String.length r <= m -> substring 0 m r = r.
Proof.
  revert m. induction r as [|c r IH]; intros m Hm; destruct m; simpl in *; try reflexivity; try lia.
  f_equal. apply IH. lia.
Qed.

Lemma substring_after_prefix p r :
  substring (String.length p) (String.length (p ++ r)) (p ++ r) = r.
Proof.
  assert (Hm : String.length r <= String.length (p ++ r)) by (rewrite length_str_app; lia).
  revert Hm. generalize (String.length (p ++ r)) as m. intros m Hm.
  induction p as [|a p IH]; [apply substring_0_long; exact Hm|].
  rewrite app_String. simpl. exact IH.
Qed.

Lemma remove_all_fuel_S f old c r :
  Py.remove_all_fuel (S f) old (String c r) =
  if String.prefix old (String c r)
  then Py.remove_all_fuel f old (substring (String.length old) (String.length (String c r)) (String c r))
  else String c (Py.remove_all_fuel f old r).
Proof. reflexivity. Qed.

Lemma remove_all_untouched f old k :
  In "_"%char (list_ascii_of_string old) -> ~ In "_"%char (list_ascii_of_string k) ->
  Py.remove_all_fuel f old k = k.
Proof.
  intros Hold. revert f. induction k as [|c k IH]; intros f Hk; destruct f; try reflexivity.
  rewrite remove_all_fuel_S.
  destruct (String.prefix old (String c k)) eqn:Hp.
  - exfalso. destruct (prefix_app_inv _ _ Hp) as [r Hr]. apply Hk.
    rewrite Hr, list_ascii_app. apply in_or_app. left. exact Hold.
  - f_equal. apply IH. intros H. apply Hk. right. exact H.
Qed.

Lemma replace_empty_prefix old k :
  In "_"%char (list_ascii_of_string old) -> ~ In "_"%char (list_ascii_of_string k) ->
  Py.replace_empty old (old ++ k) = k.
Proof.
  intros Hold Hk. unfold Py.replace_empty.
  destruct old as [|c0 r0]; [destruct Hold|].
  rewrite app_String.
  change (String.length (String c0 (r0 ++ k))) with (S (String.length (r0 ++ k))).
  rewrite remove_all_fuel_S, <- app_String, prefix_self_app, substring_after_prefix.
  apply remove_all_untouched; assumption.
Qed.

Lemma underscore_dept : In "_"%char (list_ascii_of_string "dept_").
Proof. simpl. tauto. Qed.
Lemma underscore_priority : In "_"%char (list_ascii_of_string "priority_").
Proof. simpl. tauto. Qed.

(** Every department of the catalog whose identifier has no underscore has
    a button in the keyboard of /order carrying "dept_" and the identifier;
    pressing it at SELECTING_DEPARTMENT, with a reliable transport, records
    exactly that identifier, asks for the product and moves to
    ENTERING_PRODUCT. *)
Theorem department_button_round_trip (DEPARTMENTS PRIORITIES : gmap string string)
    (user : TgUser) (chat : Z) (s : St) (k label : string) :
  DEPARTMENTS !! k = Some label -> ~ In "_"%char (list_ascii_of_string k) ->
  [(label, "dept_" ++ k)] ∈ department_keyboard DEPARTMENTS /\
  (sched s = [] ->
   process_update DEPARTMENTS PRIORITIES (Some SELECTING_DEPARTMENT)
     (mkUpdate user chat (UCallback ("dept_" ++ k))) s =
   (Some ENTERING_PRODUCT,
    add_event (EvSend chat Messages.order_enter_product None OSent)
      (set_ud (with_department k (ud s)) (add_event (EvAnswer OSent) s)))).
Proof.
  intros Hk Hus. split.
  - apply list_elem_of_In, in_map_iff. exists (k, label). split; [reflexivity|].
    apply list_elem_of_In, elem_of_map_to_list. exact Hk.
  - intros Hs. unfold process_update. rewrite route_department.
    unfold Py.startswith. rewrite prefix_self_app.
    unfold department_selected, set_user_data, modify.
    rewrite (replace_empty_prefix "dept_" k underscore_dept Hus).
    rewrite !bind_run, (answer_query_reliable s Hs). cbn -[_send_message_with_retry].
    rewrite bind_run. cbn -[_send_message_with_retry].
    rewrite bind_run, send_with_retry_reliable by exact Hs. reflexivity.
Qed.

Lemma route_priority D P user chat d :
  route D P (Some SELECTING_PRIORITY) (mkUpdate user chat (UCallback d)) =
  if Py.startswith d "priority_"
  then RConv (priority_selected D P (mkUpdate user chat (UCallback d)) d) else RNone.
Proof. unfold route. cbn. destruct (Py.startswith d "priority_"); reflexivity. Qed.

(** Every priority of the catalog whose identifier has no underscore has a
    button carrying "priority_" and the identifier. Pressing it at
    SELECTING_PRIORITY with a complete draft (a known department, a product,
    a quantity) and a reliable transport records that priority, sends the
    formatted summary with the confirm/cancel keyboard and moves to
    CONFIRMING_ORDER. *)
Theorem priority_button_confirms (DEPARTMENTS PRIORITIES : gmap string string)
    (user : TgUser) (chat : Z) (s : St) (k label dk dl p q txt : string) :
  PRIORITIES !! k = Some label -> ~ In "_"%char (list_ascii_of_string k) ->
  department (ud s) = Some dk -> DEPARTMENTS !! dk = Some dl ->
  product (ud s) = Some p -> quantity (ud s) = Some q ->
  py_format Messages.order_confirmation
    [("department", dl); ("product", p); ("quantity", q); ("priority", label)] = Ok txt ->
  sched s = [] ->
  [(label, "priority_" ++ k)] ∈ priority_keyboard PRIORITIES /\
  process_update DEPARTMENTS PRIORITIES (Some SELECTING_PRIORITY)
    (mkUpdate user chat (UCallback ("priority_" ++ k))) s =
  (Some CONFIRMING_ORDER,
   add_event (EvSend chat txt (Some confirm_keyboard) OSent)
     (set_ud (with_priority k (ud s)) (add_event (EvAnswer OSent) s))).
Proof.
  intros Hk Hus Hd Hdl Hp Hq Hfmt Hs. split.
  - apply list_elem_of_In, in_map_iff. exists (k, label). split; [reflexivity|].
    apply list_elem_of_In, elem_of_map_to_list. exact Hk.
  - unfold process_update. rewrite route_priority.
    unfold Py.startswith. rewrite prefix_self_app.
    unfold priority_selected, set_user_data, modify, gets.
    rewrite (replace_empty_prefix "priority_" k underscore_priority Hus).
    rewrite !bind_run, (answer_query_reliable s Hs). cbv beta iota.
    rewrite !bind_run. cbv beta iota.
    cbn [ud set_ud add_event department product quantity priority with_priority].
    rewrite Hd, Hp, Hq. cbn [rbind field_get]. unfold dict_get. rewrite Hdl, Hk.
    cbn [liftR]. unfold mret, M_ret. cbv beta iota. rewrite !bind_run.
    rewrite Hfmt. cbn [liftR effective_chat]. unfold mret, M_ret. cbv beta iota.
    rewrite bind_run, send_with_retry_reliable by exact Hs. reflexivity.
Qed.

Lemma error_handler_key_reliable u x s :
  sched s = [] ->
  error_handler u (ExnKey x) s =
  (Ok tt, add_event (EvSend (effective_chat u) Messages.error_occurred None OSent) s).
Proof.
  intros Hs. unfold error_handler. rewrite catch_run, send_message_run.
  unfold pop. rewrite Hs. reflexivity.
Qed.

(** A "priority_" payload whose key is not in the catalog is still written
    into the draft, then the lookup raises KeyError: the conversation stays
    at SELECTING_PRIORITY and, with a reliable transport, the chat gets the
    generic error message after the query was answered. *)
Theorem unknown_priority_reports_error (DEPARTMENTS PRIORITIES : gmap string string)
    (user : TgUser) (chat : Z) (s : St) (data : string) :
  Py.startswith data "priority_" = true ->
  PRIORITIES !! Py.replace_empty "priority_" data = None -> sched s = [] ->
  process_update DEPARTMENTS PRIORITIES (Some SELECTING_PRIORITY)
    (mkUpdate user chat (UCallback data)) s =
  (Some SELECTING_PRIORITY,
   add_event (EvSend chat Messages.error_occurred None OSent)
     (set_ud (with_priority (Py.replace_empty "priority_" data) (ud s))
        (add_event (EvAnswer OSent) s))).
Proof.
  intros Hpre Hk Hs. unfold process_update. rewrite route_priority, Hpre.
  unfold priority_selected, set_user_data, modify, gets.
  remember (Py.replace_empty "priority_" data) as key eqn:Ekey. clear Ekey.
  rewrite !bind_run, (answer_query_reliable s Hs). cbv beta iota.
  rewrite !bind_run. cbv beta iota.
  cbn [ud set_ud add_event department product quantity priority with_priority].
  destruct s as [um0 cfg [b dep prod qty pri] sch tr clk]; cbn in Hs; subst sch.
  cbn [ud department product quantity priority with_priority].
  set (s1 := set_ud _ _). assert (Hs1 : sched s1 = []) by reflexivity. clearbody s1.
  repeat first [ rewrite bind_run | rewrite Hk
               | progress (cbn [rbind field_get liftR])
               | progress (unfold dict_get, mret, M_ret, raise)
               | progress cbv beta iota
               | match goal with |- context [match ?x with Some _ => _ | None => _ end] =>
                   destruct x end
               | match goal with |- context [field_get _ ?x] => is_var x; destruct x end ];
  rewrite error_handler_key_reliable by exact Hs1; reflexivity.
Qed.

(** ** Free-text steps *)

Lemma route_product D P user chat t :
  route D P (Some ENTERING_PRODUCT) (mkUpdate user chat (UText t)) =
  RConv (product_entered (mkUpdate user chat (UText t)) t).
Proof. reflexivity. Qed.

Lemma route_quantity D P user chat t :
  route D P (Some ENTERING_QUANTITY) (mkUpdate user chat (UText t)) =
  RConv (quantity_entered P (mkUpdate user chat (UText t)) t).
Proof. reflexivity. Qed.

(** The product and quantity steps store the stripped text as it is, with
    no validation, before prompting; the draft is updated even when the
    prompt fails (the state then stays where it was). With a reliable
    transport the next prompt is sent and the conversation advances. *)
Theorem text_steps_store_unvalidated (DEPARTMENTS PRIORITIES : gmap string string)
    (user : TgUser) (chat : Z) (s : St) (t : string) :
  let rp := process_update DEPARTMENTS PRIORITIES (Some ENTERING_PRODUCT)
              (mkUpdate user chat (UText t)) s in
  let rq := process_update DEPARTMENTS PRIORITIES (Some ENTERING_QUANTITY)
              (mkUpdate user chat (UText t)) s in
  ud (snd rp) = with_product (Py.strip t) (ud s) /\
  ud (snd rq) = with_quantity (Py.strip t) (ud s) /\
  (fst rp = Some ENTERING_QUANTITY \/ fst rp = Some ENTERING_PRODUCT) /\
  (fst rq = Some SELECTING_PRIORITY \/ fst rq = Some ENTERING_QUANTITY) /\
  (sched s = [] ->
   rp = (Some ENTERING_QUANTITY,
         add_event (EvSend chat Messages.order_enter_quantity None OSent)
           (set_ud (with_product (Py.strip t) (ud s)) s)) /\
   rq = (Some SELECTING_PRIORITY,
         add_event (EvSend chat Messages.order_select_priority
                      (Some (priority_keyboard PRIORITIES)) OSent)
           (set_ud (with_quantity (Py.strip t) (ud s)) s))).
Proof.
  cbv zeta. unfold process_update. rewrite route_product, route_quantity.
  unfold product_entered, quantity_entered, set_user_data, modify.
  rewrite !bind_run. cbv beta iota. cbn [effective_chat].
  pose proof (ud_send_with_retry chat Messages.order_enter_quantity None
                (set_ud (with_product (Py.strip t) (ud s)) s)) as Hp.
  pose proof (ud_send_with_retry chat Messages.order_select_priority
                (Some (priority_keyboard PRIORITIES))
                (set_ud (with_quantity (Py.strip t) (ud s)) s)) as Hq.
  destruct (_send_message_with_retry chat Messages.order_enter_quantity None
              (set_ud (with_product (Py.strip t) (ud s)) s)) as [[a|e] sp] eqn:Ep;
  destruct (_send_message_with_retry chat Messages.order_select_priority
              (Some (priority_keyboard PRIORITIES))
              (set_ud (with_quantity (Py.strip t) (ud s)) s)) as [[a'|e'] sq] eqn:Eq;
  cbn [snd fst] in Hp, Hq |- *;
  unfold mret, M_ret; cbv beta iota; cbn [snd fst];
  rewrite ?ud_error_handler, Hp, Hq;
  (split; [reflexivity|]); (split; [reflexivity|]);
  (split; [tauto|]); (split; [tauto|]); intros Hs;
  rewrite send_with_retry_reliable in Ep, Eq by exact Hs;
  try discriminate Ep; try discriminate Eq;
  injection Ep as <- <-; injection Eq as <- <-; split; reflexivity.
Qed.

(** ** Relaying with a reliable transport *)

Lemma send_to_each_reliable message ids s :
  sched s = [] -> send_to_each message ids s = (Ok tt, relay_events message ids s).
Proof.
  unfold relay_events. revert s. induction ids as [|a ids IH]; intros s Hs; [reflexivity|].
  cbn [send_to_each fold_left]. rewrite bind_run, catch_run, bind_run.
  rewrite send_with_retry_reliable by exact Hs. cbv beta iota.
  unfold mret, M_ret. cbv beta iota. apply IH. exact Hs.
Qed.

Lemma relay_events_sched message ids s : sched (relay_events message ids s) = sched s.
Proof. unfold relay_events. revert s. induction ids as [|a ids IH]; intros s; [reflexivity|]. cbn [fold_left]. rewrite IH. reflexivity. Qed.

Lemma relay_events_ud message ids s : ud (relay_events message ids s) = ud s.
Proof. unfold relay_events. revert s. induction ids as [|a ids IH]; intros s; [reflexivity|]. cbn [fold_left]. rewrite IH. reflexivity. Qed.

Lemma relay_events_um message ids s : um (relay_events message ids s) = um s.
Proof. unfold relay_events. revert s. induction ids as [|a ids IH]; intros s; [reflexivity|]. cbn [fold_left]. rewrite IH. reflexivity. Qed.

Lemma relay_events_trace message ids s :
  trace (relay_events message ids s) =
  (trace s ++ map (fun a => EvSend a message None OSent) ids)%list.
Proof.
  unfold relay_events. revert s. induction ids as [|a ids IH]; intros s.
  - cbn. rewrite app_nil_r. reflexivity.
  - cbn [fold_left map]. rewrite IH, trace_add_event, <- app_assoc. reflexivity.
Qed.

Lemma sends_to_app c l1 l2 : sends_to c (l1 ++ l2) = (sends_to c l1 ++ sends_to c l2)%list.
Proof. apply omap_app. Qed.

Lemma sends_to_relay message ids a :
  NoDup ids ->
  sends_to a (map (fun b => EvSend b message None OSent) ids) =
  if bool_decide (a ∈ ids) then [message] else [].
Proof.
  induction 1 as [|b ids Hb Hnd IH]; [reflexivity|].
  cbn [map]. change (EvSend b message None OSent :: map (fun b => EvSend b message None OSent) ids) with ([EvSend b message None OSent] ++ map (fun b => EvSend b message None OSent) ids)%list.
  rewrite sends_to_app, IH. unfold sends_to at 1. simpl.
  destruct (Z.eqb_spec a b) as [->|Hne];
    repeat case_bool_decide; try reflexivity; set_solver.
Qed.

Lemma admin_ids_relay message s a :
  sends_to a (map (fun b => EvSend b message None OSent) (get_admin_ids (um s))) =
  if is_admin (um s) a then [message] else [].
Proof.
  rewrite sends_to_relay by (unfold get_admin_ids; apply NoDup_elements). unfold is_admin, get_admin_ids.
  rewrite (bool_decide_ext (a ∈ elements (admins (um s))) (a ∈ admins (um s)))
    by apply elem_of_elements.
  reflexivity.
Qed.

(** With a reliable transport, [_send_order_to_admins] returns normally,
    leaves the user data alone, and every administrator receives the order
    exactly once while no one else receives anything. *)
Theorem relay_reliable_exactly_once (message : string) (s : St) :
  sched s = [] ->
  fst (_send_order_to_admins message s) = Ok tt /\
  ud (snd (_send_order_to_admins message s)) = ud s /\
  forall a, sends_to a (trace (snd (_send_order_to_admins message s))) =
            (sends_to a (trace s) ++ if is_admin (um s) a then [message] else [])%list.
Proof.
  intros Hs. unfold _send_order_to_admins, gets. rewrite bind_run. cbv beta iota.
  rewrite send_to_each_reliable by exact Hs. cbn [fst snd].
  split; [reflexivity|]. split; [apply relay_events_ud|]. intros a.
  rewrite relay_events_trace, sends_to_app, admin_ids_relay. reflexivity.
Qed.

Lemma relay_reliable_exactly_once_witness :
  sched (sample_state sample_um empty_user_data []) = [] /\
  fst (_send_order_to_admins "order" (sample_state sample_um empty_user_data [])) = Ok tt /\
  ud (snd (_send_order_to_admins "order" (sample_state sample_um empty_user_data []))) =
    empty_user_data /\
  forall a, sends_to a (trace (snd (_send_order_to_admins "order"
                                     (sample_state sample_um empty_user_data [])))) =
            (if is_admin sample_um a then ["order"] else []).
Proof.
  split; [reflexivity|].
  apply (relay_reliable_exactly_once "order" (sample_state sample_um empty_user_data [])).
  reflexivity.
Defined.

Lemma send_order_reliable message s :
  sched s = [] ->
  _send_order_to_admins message s =
  (Ok tt, relay_events message (get_admin_ids (um s)) s).
Proof.
  intros Hs. unfold _send_order_to_admins, gets. rewrite bind_run. cbv beta iota.
  apply send_to_each_reliable. exact Hs.
Qed.

Lemma sends_to_answer a o : sends_to a [EvAnswer o] = [].
Proof. reflexivity. Qed.

Lemma sends_to_send a c t mk o :
  sends_to a [EvSend c t mk o] = if Z.eqb a c then [t] else [].
Proof. unfold sends_to. cbn. destruct (Z.eqb a c); reflexivity. Qed.

(** Confirming a draft whose order message can be built, with a reliable
    transport: the conversation ends, the user data is emptied, the registry
    is unchanged, each administrator gets the order once and the submitter's
    chat gets the success message. *)
Theorem confirm_yes_relays_once (DEPARTMENTS PRIORITIES : gmap string string)
    (user : TgUser) (chat : Z) (s : St) (msg : string) :
  order_message DEPARTMENTS PRIORITIES user (ud s) (clock s) = Ok msg -> sched s = [] ->
  let r := process_update DEPARTMENTS PRIORITIES (Some CONFIRMING_ORDER)
             (mkUpdate user chat (UCallback "confirm_yes")) s in
  fst r = END /\ ud (snd r) = empty_user_data /\ um (snd r) = um s /\
  forall a, sends_to a (trace (snd r)) =
    (sends_to a (trace s) ++ (if is_admin (um s) a then [msg] else []) ++
     (if Z.eqb a chat then [Messages.order_success] else []))%list.
Proof.
  intros Hmsg Hs. cbv zeta. unfold process_update. rewrite route_confirm.
  change (Py.startswith "confirm_yes" "confirm_") with true. cbv iota.
  unfold confirm_order, set_user_data, modify, gets.
  change (String.eqb "confirm_yes" "confirm_yes") with true. cbv iota.
  rewrite !bind_run, (answer_query_reliable s Hs). cbv beta iota.
  rewrite !bind_run. cbv beta iota.
  cbn [ud clock add_event effective_user effective_chat].
  match goal with |- context [order_message _ _ _ ?d ?c] =>
    change d with (ud s); change c with (clock s) end.
  rewrite Hmsg. cbn [liftR]. unfold mret, M_ret. cbv beta iota.
  rewrite !bind_run, send_order_reliable by exact Hs. cbv beta iota.
  rewrite bind_run, send_with_retry_reliable
    by (rewrite relay_events_sched; exact Hs).
  cbv beta iota. rewrite bind_run. cbv beta iota.
  cbn [fst snd ud um trace set_ud add_event].
  split; [reflexivity|]. split; [reflexivity|].
  split; [rewrite relay_events_um; reflexivity|]. intros a.
  rewrite sends_to_app, relay_events_trace. cbn [trace add_event].
  rewrite sends_to_app, admin_ids_relay.
  rewrite sends_to_app, sends_to_answer, sends_to_send, app_nil_r, <- !app_assoc.
  reflexivity.
Qed.

Lemma order_message_unknown_department D P user d now dk :
  department d = Some dk -> D !! dk = None ->
  order_message D P user d now = Err (ExnKey dk).
Proof.
  intros Hd Hn. unfold order_message, order_args. rewrite Hd. cbn [rbind field_get].
  unfold dict_get. rewrite Hn. reflexivity.
Qed.

(** Confirming a draft whose department is not in the catalog raises
    KeyError before anything is relayed: the conversation stays at
    CONFIRMING_ORDER with the draft intact and, with a reliable transport,
    the chat only gets the generic error message. *)
Theorem confirm_unknown_department_blocks (DEPARTMENTS PRIORITIES : gmap string string)
    (user : TgUser) (chat : Z) (s : St) (dk : string) :
  department (ud s) = Some dk -> DEPARTMENTS !! dk = None -> sched s = [] ->
  process_update DEPARTMENTS PRIORITIES (Some CONFIRMING_ORDER)
    (mkUpdate user chat (UCallback "confirm_yes")) s =
  (Some CONFIRMING_ORDER,
   add_event (EvSend chat Messages.error_occurred None OSent) (add_event (EvAnswer OSent) s)).
Proof.
  intros Hd Hn Hs. unfold process_update. rewrite route_confirm.
  change (Py.startswith "confirm_yes" "confirm_") with true. cbv iota.
  unfold confirm_order, set_user_data, modify, gets.
  change (String.eqb "confirm_yes" "confirm_yes") with true. cbv iota.
  rewrite !bind_run, (answer_query_reliable s Hs). cbv beta iota.
  rewrite !bind_run. cbv beta iota.
  cbn [ud clock add_event effective_user].
  rewrite (order_message_unknown_department _ _ _ _ _ dk Hd Hn).
  cbn [liftR]. unfold raise. cbv beta iota.
  rewrite error_handler_key_reliable by exact Hs. reflexivity.
Qed.

Lemma department_button_round_trip_witness :
  sample_departments !! "it" = Some "IT" /\ ~ In "_"%char (list_ascii_of_string "it") /\
  [("IT", "dept_" ++ "it")] ∈ department_keyboard sample_departments /\
  (sched (sample_state sample_um empty_user_data []) = [] ->
   process_update sample_departments sample_priorities (Some SELECTING_DEPARTMENT)
     (mkUpdate ann 42 (UCallback ("dept_" ++ "it"))) (sample_state sample_um empty_user_data []) =
   (Some ENTERING_PRODUCT,
    add_event (EvSend 42 Messages.order_enter_product None OSent)
      (set_ud (with_department "it" (ud (sample_state sample_um empty_user_data [])))
         (add_event (EvAnswer OSent) (sample_state sample_um empty_user_data []))))).
Proof.
  assert (Hus : ~ In "_"%char (list_ascii_of_string "it"))
    by (cbn; intros [H|[H|[]]]; discriminate H).
  split; [reflexivity|]. split; [exact Hus|].
  apply (department_button_round_trip sample_departments sample_priorities ann 42
           (sample_state sample_um empty_user_data []) "it" "IT"); [reflexivity|exact Hus].
Defined.

Lemma priority_button_confirms_witness :
  let s := sample_state sample_um
             (mkUserData true (Some "it") (Some "Mouse") (Some "10") None) [] in
  let txt := "Confirm the order" ++ "
Department: IT
Product: Mouse
Quantity: 10
Priority: High" in
  py_format Messages.order_confirmation
    [("department", "IT"); ("product", "Mouse"); ("quantity", "10"); ("priority", "High")] = Ok txt /\
  [("High", "priority_" ++ "high")] ∈ priority_keyboard sample_priorities /\
  process_update sample_departments sample_priorities (Some SELECTING_PRIORITY)
    (mkUpdate ann 42 (UCallback ("priority_" ++ "high"))) s =
  (Some CONFIRMING_ORDER,
   add_event (EvSend 42 txt (Some confirm_keyboard) OSent)
     (set_ud (with_priority "high" (ud s)) (add_event (EvAnswer OSent) s))).
Proof.
  cbv zeta. split; [vm_compute; reflexivity|].
  apply (priority_button_confirms sample_departments sample_priorities ann 42 _
           "high" "High" "it" "IT" "Mouse" "10").
  - reflexivity.
  - cbn. intros [H|[H|[H|[H|[]]]]]; discriminate H.
  - reflexivity.
  - reflexivity.
  - reflexivity.
  - reflexivity.
  - vm_compute. reflexivity.
  - reflexivity.
Defined.

Lemma unknown_priority_reports_error_witness :
  Py.startswith "priority_urgent" "priority_" = true /\
  sample_priorities !! Py.replace_empty "priority_" "priority_urgent" = None /\
  process_update sample_departments sample_priorities (Some SELECTING_PRIORITY)
    (mkUpdate ann 42 (UCallback "priority_urgent")) (sample_state sample_um empty_user_data []) =
  (Some SELECTING_PRIORITY,
   add_event (EvSend 42 Messages.error_occurred None OSent)
     (set_ud (with_priority (Py.replace_empty "priority_" "priority_urgent")
                (ud (sample_state sample_um empty_user_data [])))
        (add_event (EvAnswer OSent) (sample_state sample_um empty_user_data [])))).
Proof.
  split; [reflexivity|]. split; [vm_compute; reflexivity|].
  apply unknown_priority_reports_error; [reflexivity|vm_compute; reflexivity|reflexivity].
Defined.

Lemma confirm_yes_relays_once_witness :
  let s := sample_state sample_um
             (mkUserData true (Some "it") (Some "Mouse") (Some "10") (Some "high")) [] in
  let msg := "New order" ++ "
From: Ann Lee (@ann)
Department: IT
Product: Mouse
Quantity: 10
Priority: High
Date: 07.03.2026 09:05" in
  order_message sample_departments sample_priorities ann (ud s) (clock s) = Ok msg /\
  let r := process_update sample_departments sample_priorities (Some CONFIRMING_ORDER)
             (mkUpdate ann 42 (UCallback "confirm_yes")) s in
  fst r = END /\ ud (snd r) = empty_user_data /\ um (snd r) = um s /\
  forall a, sends_to a (trace (snd r)) =
    (sends_to a (trace s) ++ (if is_admin (um s) a then [msg] else []) ++
     (if Z.eqb a 42 then [Messages.order_success] else []))%list.
Proof.
  cbv zeta. split; [vm_compute; reflexivity|].
  apply (confirm_yes_relays_once sample_departments sample_priorities ann 42); [|reflexivity].
  vm_compute. reflexivity.
Defined.

Lemma confirm_unknown_department_blocks_witness :
  let s := sample_state sample_um
             (mkUserData true (Some "lab") (Some "Mouse") (Some "10") (Some "high")) [] in
  sample_departments !! "lab" = None /\
  process_update sample_departments sample_priorities (Some CONFIRMING_ORDER)
    (mkUpdate ann 42 (UCallback "confirm_yes")) s =
  (Some CONFIRMING_ORDER,
   add_event (EvSend 42 Messages.error_occurred None OSent) (add_event (EvAnswer OSent) s)).
Proof.
  cbv zeta. split; [vm_compute; reflexivity|].
  apply (confirm_unknown_department_blocks sample_departments sample_priorities ann 42 _ "lab");
    [reflexivity|vm_compute; reflexivity|reflexivity].
Defined.

(** ** The in-progress flag outside a conversation *)

Lemma keeps_ud_um_reload : keeps ud um_reload_users.
Proof. intros s. unfold um_reload_users. destruct (reload_users (users_cfg s) (um s)). reflexivity. Qed.

Ltac keeps_ud_tac :=
  repeat (first
    [ apply keeps_ud_um_reload
    | apply (keeps_send_with_retry ud ud_set_sched ud_add_event)
    | apply (keeps_send_message ud ud_set_sched ud_add_event)
    | apply keeps_gets | apply keeps_ret | apply keeps_raise
    | apply keeps_bind | apply keeps_catch
    | match goal with |- keeps _ (if ?b then _ else _) => destruct b end
    | match goal with |- forall _, _ => intro end ]).

Lemma keeps_ud_start u : keeps ud (start u).
Proof. unfold start. keeps_ud_tac. Qed.
Lemma keeps_ud_help u : keeps ud (help_command u).
Proof. unfold help_command. keeps_ud_tac. Qed.
Lemma keeps_ud_reload u : keeps ud (bot_reload_users u).
Proof. unfold bot_reload_users, reply_text. keeps_ud_tac. Qed.
Lemma keeps_ud_cancel_not_available u : keeps ud (cancel_not_available u).
Proof. unfold cancel_not_available. keeps_ud_tac. Qed.
Lemma keeps_ud_order_in_progress u : keeps ud (order_in_progress_handler u).
Proof. unfold order_in_progress_handler. keeps_ud_tac. Qed.

Lemma plain_keeps_ud (h : M unit) u s :
  keeps ud h ->
  fst (match h s with (Ok _, s') => (@None OrderState, s')
                    | (Err e, s') => (None, snd (error_handler u e s')) end) = None /\
  ud (snd (match h s with (Ok _, s') => (@None OrderState, s')
                        | (Err e, s') => (None, snd (error_handler u e s')) end)) = ud s.
Proof.
  intros H. specialize (H s). destruct (h s) as [[a|e] s'];
    cbn [fst snd] in *; (split; [reflexivity|]); rewrite ?ud_error_handler; exact H.
Qed.

Lemma idle_flag_keeps_ud (DEPARTMENTS PRIORITIES : gmap string string)
    (u : Update) (s : St) :
  order_in_progress (ud s) = true ->
  fst (process_update DEPARTMENTS PRIORITIES None u s) = None /\
  ud (snd (process_update DEPARTMENTS PRIORITIES None u s)) = ud s.
Proof.
  intros Hip. unfold process_update, route.
  destruct (is_command "start" u); [apply plain_keeps_ud, keeps_ud_start|].
  destruct (is_command "help" u); [apply plain_keeps_ud, keeps_ud_help|].
  destruct (is_command "reload_users" u); [apply plain_keeps_ud, keeps_ud_reload|].
  unfold conversation_route. destruct (is_command "order" u) eqn:Eo.
  - unfold order_command, gets. rewrite bind_run. cbv beta iota.
    destruct (negb (is_allowed (um s) (user_id (effective_user u)))).
    + rewrite bind_run.
      pose proof (ud_send_with_retry (effective_chat u) Messages.access_denied None s) as H.
      destruct (_send_message_with_retry (effective_chat u) Messages.access_denied None s)
        as [[a|e] s'];
        cbn [fst snd] in *; (split; [reflexivity|]); rewrite ?ud_error_handler; exact H.
    + rewrite bind_run. cbv beta iota. rewrite Hip. rewrite bind_run.
      pose proof (ud_send_with_retry (effective_chat u) Messages.order_already_in_progress None s)
        as H.
      destruct (_send_message_with_retry (effective_chat u) Messages.order_already_in_progress
                  None s) as [[a|e] s'];
        cbn [fst snd] in *; (split; [reflexivity|]); rewrite ?ud_error_handler; exact H.
  - destruct (is_command "cancel" u); [apply plain_keeps_ud, keeps_ud_cancel_not_available|].
    split; reflexivity.
Qed.

(** /order with no active conversation from an allowed user whose flag is
    set: "already in progress". *)
Lemma order_idle_busy_run (DEPARTMENTS PRIORITIES : gmap string string)
    (user : TgUser) (chat : Z) (s : St) :
  is_allowed (um s) (user_id user) = true -> order_in_progress (ud s) = true ->
  exists o l,
    trace (snd (process_update DEPARTMENTS PRIORITIES None
                  (mkUpdate user chat (UCommand "order")) s)) =
    (trace s ++ EvSend chat Messages.order_already_in_progress None o :: l)%list.
Proof.
  intros Hal Hip. unfold process_update. rewrite route_order_idle.
  unfold order_command, gets.
  repeat (first [rewrite Hal | rewrite Hip | rewrite !bind_run];
          cbn -[_send_message_with_retry is_allowed error_handler]).
  destruct (_send_message_with_retry chat Messages.order_already_in_progress None s)
    as [[a|e] s1] eqn:E; reply_case E; destruct Hreply as (_ & _ & o & l & Hl);
    cbn -[error_handler].
  - eauto.
  - destruct (error_handler_run (mkUpdate user chat (UCommand "order")) e s1)
      as (_ & _ & l' & Hl').
    rewrite Hl', Hl. exists o, (l ++ l')%list. rewrite <- app_assoc. reflexivity.
Qed.

(** With no active conversation and the in-progress flag set, no update of
    the user (commands, text or callbacks, whatever the transport does)
    starts a conversation or changes the user data. /order is answered
    "already in progress" when the user is allowed and access-denied when
    not; /cancel is answered that there is nothing to cancel. *)
Theorem idle_in_progress_flag_locks_out (DEPARTMENTS PRIORITIES : gmap string string)
    (u : Update) (s : St) :
  order_in_progress (ud s) = true ->
  let r := process_update DEPARTMENTS PRIORITIES None u s in
  fst r = None /\ ud (snd r) = ud s /\
  (is_command "order" u = true ->
     exists o l, trace (snd r) =
       (trace s ++ EvSend (effective_chat u)
                     (if is_allowed (um s) (user_id (effective_user u))
                      then Messages.order_already_in_progress else Messages.access_denied)
                     None o :: l)%list) /\
  (is_command "cancel" u = true ->
     exists o l, trace (snd r) =
       (trace s ++ EvSend (effective_chat u) Messages.cancel_not_available None o :: l)%list).
Proof.
  intros Hip. cbv zeta.
  destruct (idle_flag_keeps_ud DEPARTMENTS PRIORITIES u s Hip) as [Hfst Hud].
  split; [exact Hfst|split; [exact Hud|split]].
  - intros Ho. destruct u as [user chat [n|t|d]]; unfold is_command in Ho; cbn [kind] in Ho;
      try discriminate Ho.
    apply String.eqb_eq in Ho. subst n. cbn [effective_chat effective_user].
    destruct (is_allowed (um s) (user_id user)) eqn:Ea.
    + exact (order_idle_busy_run DEPARTMENTS PRIORITIES user chat s Ea Hip).
    + destruct (order_denied_run DEPARTMENTS PRIORITIES user chat s Ea) as (s1 & Hr & _ & Htr).
      rewrite Hr. exact Htr.
  - intros Hc. destruct u as [user chat [n|t|d]]; unfold is_command in Hc; cbn [kind] in Hc;
      try discriminate Hc.
    apply String.eqb_eq in Hc. subst n. cbn [effective_chat].
    destruct (cancel_idle_run DEPARTMENTS PRIORITIES user chat s) as (_ & _ & _ & Htr).
    exact Htr.
Qed.

Lemma send_with_retry_failed c t mk s rest :
  sched s = OFailed :: rest -> fst (_send_message_with_retry c t mk s) = Err ExnTelegram.
Proof.
  intros H. unfold _send_message_with_retry, _send_message_with_retry_n. cbn [retry_loop].
  rewrite catch_run, bind_run, send_message_run. unfold pop. rewrite H. reflexivity.
Qed.

(** /order from an allowed user with no order in progress sets the
    in-progress flag before sending the department keyboard; when that send
    fails with a TelegramError, the conversation does not start but the flag
    stays set. *)
Theorem failed_order_prompt_sets_flag (DEPARTMENTS PRIORITIES : gmap string string)
    (user : TgUser) (chat : Z) (s : St) (rest : list Outcome) :
  is_allowed (um s) (user_id user) = true -> order_in_progress (ud s) = false ->
  sched s = OFailed :: rest ->
  fst (process_update DEPARTMENTS PRIORITIES None (mkUpdate user chat (UCommand "order")) s)
    = None /\
  ud (snd (process_update DEPARTMENTS PRIORITIES None (mkUpdate user chat (UCommand "order")) s))
    = with_order_in_progress true (ud s).
Proof.
  intros Hal Hip Hs. unfold process_update.
  change (route DEPARTMENTS PRIORITIES None (mkUpdate user chat (UCommand "order")))
    with (RConv (order_command DEPARTMENTS (mkUpdate user chat (UCommand "order")))).
  unfold order_command, gets, set_user_data, modify. rewrite bind_run. cbv beta iota.
  cbn [effective_user effective_chat]. rewrite Hal. cbv iota. cbn [negb].
  rewrite bind_run. cbv beta iota. rewrite Hip. rewrite !bind_run. cbv beta iota.
  pose proof (send_with_retry_failed chat Messages.order_select_department
                (Some (department_keyboard DEPARTMENTS))
                (set_ud (with_order_in_progress true (ud s)) s) rest Hs) as Hf.
  pose proof (ud_send_with_retry chat Messages.order_select_department
                (Some (department_keyboard DEPARTMENTS))
                (set_ud (with_order_in_progress true (ud s)) s)) as Hu.
  destruct (_send_message_with_retry chat Messages.order_select_department
              (Some (department_keyboard DEPARTMENTS))
              (set_ud (with_order_in_progress true (ud s)) s)) as [[a|e] s'];
    cbn [fst snd] in Hf, Hu |- *; [discriminate Hf|].
  split; [reflexivity|]. rewrite ud_error_handler. exact Hu.
Qed.

Lemma failed_order_prompt_sets_flag_witness :
  let s := sample_state sample_um empty_user_data [OFailed] in
  is_allowed (um s) 42 = true /\ order_in_progress (ud s) = false /\
  fst (process_update sample_departments sample_priorities None (ann_says (UCommand "order")) s)
    = None /\
  ud (snd (process_update sample_departments sample_priorities None (ann_says (UCommand "order")) s))
    = with_order_in_progress true (ud s).
Proof.
  cbv zeta. split; [vm_compute; reflexivity|]. split; [reflexivity|].
  apply (failed_order_prompt_sets_flag sample_departments sample_priorities ann 42 _ []);
    [vm_compute; reflexivity|reflexivity|reflexivity].
Defined.

Lemma idle_in_progress_flag_locks_out_witness :
  let s := sample_state sample_um (with_order_in_progress true empty_user_data) [] in
  order_in_progress (ud s) = true /\
  fst (process_update sample_departments sample_priorities None (ann_says (UCommand "order")) s)
    = None /\
  exists o l,
    trace (snd (process_update sample_departments sample_priorities None
                  (ann_says (UCommand "order")) s)) =
    (trace s ++ EvSend 42 Messages.order_already_in_progress None o :: l)%list.
Proof.
  cbv zeta. split; [reflexivity|].
  destruct (idle_in_progress_flag_locks_out sample_departments sample_priorities
              (ann_says (UCommand "order"))
              (sample_state sample_um (with_order_in_progress true empty_user_data) [])
              eq_refl) as (Hfst & _ & Ho & _).
  split; [exact Hfst|]. exact (Ho eq_refl).
Defined.
